(** * nosebook: notebook cells as test cases

    A shallow embedding of [nosebook.py]: the notebook loader
    ([readnb], [codeCells], [wantFile]), the test generator
    ([loadTestsFromFile]), the cell sanitizer ([stripKeys],
    [sanitizeCell]) and the execution loop ([shouldContinue], [runTest]).

    Python dictionaries are finite maps, generators are explicit state
    machines with a [next] operation, exceptions are values of an error
    monad, and the kernel library is a table of kernels in the world
    state. *)

From stdpp Require Import base strings list gmap fin_maps pretty.

Open Scope string_scope.

(** ** Python values and exceptions *)

(** JSON-like values stored in output and message dictionaries. *)
Unset Elimination Schemes.
Inductive pyval :=
  | PNone
  | PBool (b : bool)
  | PInt (z : Z)
  | PStr (s : string)
  | PList (l : list pyval)
  | PDict (kvs : list (string * pyval)).
Set Elimination Schemes.

(** [v == s] for a string literal [s]: only a string value can be equal
    to it. *)
Definition py_eq_str (v : pyval) (s : string) : bool :=
  match v with
  | PStr t => bool_decide (t = s)
  | _ => false
  end.

Inductive exn :=
  | AttributeError (obj attr : string)
  | KeyError (key : string)
  | IOError (path : string)
  | ReadError (msg : string)
  | KernelError (msg : string)
  | Exception (msg : string).

(** Outcome of a Python call: a value or a raised exception. *)
Inductive result (A : Type) :=
  | Ok (a : A)
  | Raise (e : exn).
Arguments Ok {A} a.
Arguments Raise {A} e.

(** Sequencing: an exception skips the rest. The notation [x ← r; k]
    is the library's. *)
#[export] Instance result_bind : MBind result := λ A B f r,
  match r with
  | Ok a => f a
  | Raise e => Raise e
  end.

(** [d[key]] on a dictionary. *)
Definition getitem (d : gmap string pyval) (key : string) : result pyval :=
  match d !! key with
  | Some v => Ok v
  | None => Raise (KeyError key)
  end.

(** The line feed written [\n] in the source. *)
Definition nl : string := String (Ascii.ascii_of_nat 10) "".

(** ** Notebook data *)

(** An output of a cell is a dictionary. *)
Abbreviation output := (gmap string pyval).

(** A cell of the canonical (version 4) schema: the attributes the plugin
    reads by name, and every other key of the cell in [cell_extra]. The
    record is that of a code cell, which has [outputs]; the plugin hands
    only code cells to [sanitizeCell], and a cell without the key, on
    which the source would raise, has no counterpart here. *)
Record cell := Cell {
  cell_type : string;
  source : string;
  outputs : list output;
  cell_extra : gmap string pyval
}.

Record kernelspec := { ks_name : option string }.

(** [nb.metadata]; an attribute that is absent is [None]. *)
Record nb_metadata := { md_kernelspec : option kernelspec }.

Record notebook := Notebook {
  cells : list cell;
  metadata : nb_metadata
}.

(** What [readnb] returns: the constant [False] or a notebook. *)
Inductive pyobj :=
  | NbFalse
  | Nb (nb : notebook).

(** ** Messages of the kernel's broadcast channel *)

Record message := Message {
  msg_type : string;
  content : gmap string pyval
}.

(** ** Generators *)

(** One call of [next] on a generator. *)
Inductive gen_step (A : Type) :=
  | Yielded (a : A)
  | Stop
  | Raised (e : exn).
Arguments Yielded {A} a.
Arguments Stop {A}.
Arguments Raised {A} e.

(** ** The world outside the plugin *)

Inductive level := INFO | DEBUG.

Inductive logarg :=
  | LStr (s : string)
  | LExn (e : exn)
  | LVal (v : pyval).

(** One call of [log.info] or [log.debug]: the format and its arguments. *)
Record logrec := LogRec {
  lvl : level;
  fmt : logarg;
  args : list logarg
}.

(** A kernel process with its client: the name it was started under,
    [k_alive], which is set when the library starts the process and
    cleared when the process is shut down through the library (a process
    that ends by itself is not followed), the code submitted to it
    (latest last), and what the next polls of its broadcast channel will
    return ([None] is a poll that times out). *)
Record kernel := Kernel {
  k_name : option string;
  k_alive : bool;
  k_executed : list string;
  k_iopub : list (option message)
}.

(** The file system, the kernels started so far (a kernel is referred to
    by its position), the log, and the environment's side of a kernel
    start: whether a kernel of that name can be launched and what the
    broadcast channel of the n-th kernel will deliver. *)
Record world := World {
  files : gmap string string;
  kernels : list kernel;
  log : list logrec;
  can_launch : option string → bool;
  kernel_io : nat → list (option message)
}.

Definition set_kernels (ks : list kernel) (w : world) : world :=
  {| files := files w; kernels := ks; log := log w;
     can_launch := can_launch w; kernel_io := kernel_io w |}.

Definition add_log (r : logrec) (w : world) : world :=
  {| files := files w; kernels := kernels w; log := log w ++ [r];
     can_launch := can_launch w; kernel_io := kernel_io w |}.

Definition log_info (f : string) (a : list logarg) : world → world :=
  add_log (LogRec INFO (LStr f) a).

(** *** The kernel library, as far as the plugin can reach it *)
Module KernelLib.

(** [utils.start_new_kernel(kernel_name=name)]: a new running kernel,
    or an exception when none can be launched. *)
Definition start_new_kernel (name : option string) (w : world)
  : result nat * world :=
  if can_launch w name then
    let k := length (kernels w) in
    (Ok k,
     set_kernels (kernels w ++ [Kernel name true [] (kernel_io w k)]) w)
  else (Raise (KernelError "kernel failed to start"), w).

(** [kernel.execute(code)]: submit and return at once. What the code
    does to the kernel process is not followed. *)
Definition execute (k : nat) (code : string) (w : world) : world :=
  set_kernels
    (alter (λ kn, Kernel (k_name kn) (k_alive kn)
                    (k_executed kn ++ [code]) (k_iopub kn)) k (kernels w))
    w.

(** What is left to deliver on the broadcast channel of kernel [k]. *)
Definition iopub (k : nat) (w : world) : list (option message) :=
  match kernels w !! k with
  | Some kn => k_iopub kn
  | None => []
  end.

Definition set_iopub (k : nat) (ch : list (option message)) (w : world)
  : world :=
  set_kernels
    (alter (λ kn, Kernel (k_name kn) (k_alive kn) (k_executed kn) ch)
       k (kernels w))
    w.

(** Terminating the kernel process. The library offers it; no line of
    the plugin calls it. *)
Definition shutdown_kernel (k : nat) (w : world) : world :=
  set_kernels
    (alter (λ kn, Kernel (k_name kn) false (k_executed kn) (k_iopub kn))
       k (kernels w))
    w.

Definition alive (k : nat) (w : world) : bool :=
  match kernels w !! k with
  | Some kn => k_alive kn
  | None => false
  end.

End KernelLib.

(** ** The plugin's surroundings fixed at import and configuration time *)

Inductive ipython_version := IPython2 | IPython3 | IPython4.

(** [IPYTHON_VERSION] as the imports at the top of the module set it,
    the notebook-format library ([reads], and [convert] to a format
    version), the compiled [--nosebook-match] pattern as a test on file
    names, and Python's [str] on values that are not strings. *)
Record env := Env {
  rawnb : Type;
  IPYTHON_VERSION : ipython_version;
  reads : string → result rawnb;
  convert : rawnb → nat → result notebook;
  testMatch : string → bool;
  py_repr : pyval → string
}.

Definition NBFORMAT_VERSION : nat := 4.

(** [%s] applied to a value. *)
Definition fmt_s (E : env) (v : pyval) : string :=
  match v with
  | PStr s => s
  | other => py_repr E other
  end.

(** ** class NoseCellTestCase *)
Module NoseCellTestCase.

Definition STRIP_KEYS : list string :=
  ["execution_count"; "traceback"; "prompt_number"; "source"].

(** [for key in self.STRIP_KEYS: d.pop(key, None)]; [return d]. *)
Definition stripKeys (d : output) : output :=
  foldl (λ d key, delete key d) d STRIP_KEYS.

(** [for output in cell.outputs: self.stripKeys(output)]; [return cell].
    The outputs are updated in place and the cell itself is returned. *)
Definition sanitizeCell (c : cell) : cell :=
  {| cell_type := cell_type c;
     source := source c;
     outputs := stripKeys <$> outputs c;
     cell_extra := cell_extra c |}.

(** The attributes [__init__] sets. [t_kernel] refers to the kernel in
    the world's table; [self.iopub] is that kernel's broadcast channel. *)
Record testcase := TestCase {
  t_cell : cell;
  t_cell_idx : nat;
  t_filename : string;
  t_kernel : nat
}.

(** [NoseCellTestCase(cell, cell_idx, kernel, filename=filename)]: the
    cell is sanitized on the way in. The docstring that [__init__] also
    writes on [runTest] is read by none of the functions below. *)
Definition init (c : cell) (cell_idx : nat) (k : nat) (filename : string)
  : testcase :=
  {| t_cell := sanitizeCell c;
     t_cell_idx := cell_idx;
     t_filename := filename;
     t_kernel := k |}.

(** ["%s#%s" % (self.filename, self.cell_idx)]. *)
Definition id (t : testcase) : string :=
  t_filename t +:+ "#" +:+ pretty (t_cell_idx t).

(** A cell of the canonical schema has the attribute [source], so the
    first branch of [cellCode] is the one taken. *)
Definition cellCode (t : testcase) : string := source (t_cell t).

(** [not (msg["msg_type"] == "status" and
          msg["content"]["execution_state"] == "idle")], with [and]
    evaluating its right side only when the left one holds. *)
Definition shouldContinue (msg : option message) : result bool :=
  match msg with
  | None => Ok true
  | Some m =>
      if bool_decide (msg_type m = "status") then
        st ← getitem (content m) "execution_state";
        Ok (negb (py_eq_str st "idle"))
      else Ok true
  end.

(** How [runTest] ends: it returns, it raises, or it polls for ever. *)
Inductive outcome :=
  | Passed
  | Failed (e : exn)
  | Hung.

(** The text of the exception raised on an [error] message. *)
Definition error_text (E : env) (c : cell) (ename evalue : pyval) : string :=
  "Error during cell evaluation" +:+ nl +:+ "Source:" +:+ nl +:+
  source c +:+ nl +:+ fmt_s E ename +:+ nl +:+ fmt_s E evalue.

(** The body of [if msg['msg_type'] == 'error':]. *)
Definition on_error (E : env) (c : cell) (m : message)
  : exn * list logrec :=
  match getitem (content m) "traceback" with
  | Raise e => (e, [])
  | Ok tb =>
      let dbg := [LogRec DEBUG (LVal tb) []] in
      match (ename ← getitem (content m) "ename";
             evalue ← getitem (content m) "evalue";
             Ok (error_text E c ename evalue)) with
      | Ok text => (Exception text, dbg)
      | Raise e => (e, dbg)
      end
  end.

(** The [while] loop of [runTest]: [msg] is the loop variable, [chan]
    what the next calls of [get_msg] return ([None] raises [Empty]). When
    the channel has nothing more to deliver every poll times out and the
    loop never ends. The result carries what is left on the channel and
    the debug records logged. *)
Fixpoint poll (E : env) (c : cell) (msg : option message)
    (chan : list (option message))
  : outcome * list (option message) * list logrec :=
  match shouldContinue msg with
  | Raise e => (Failed e, chan, [])
  | Ok false => (Passed, chan, [])
  | Ok true =>
      match chan with
      | [] => (Hung, [], [])
      | None :: rest => poll E c msg rest
      | Some m :: rest =>
          if bool_decide (msg_type m = "error") then
            let '(e, dbg) := on_error E c m in (Failed e, rest, dbg)
          else poll E c (Some m) rest
      end
  end.

Definition runTest (E : env) (t : testcase) (w : world) : outcome * world :=
  let w1 := KernelLib.execute (t_kernel t) (cellCode t) w in
  let '(o, rest, dbg) :=
    poll E (t_cell t) None (KernelLib.iopub (t_kernel t) w1) in
  (o, foldl (λ w r, add_log r w) (KernelLib.set_iopub (t_kernel t) rest w1) dbg).

End NoseCellTestCase.

(** ** class NosebookTwo, class NosebookThree *)

Module NosebookTwo.

(** [utils.start_new_kernel()]: the notebook is not looked at. *)
Definition newKernel (nb : pyobj) (w : world) : result nat * world :=
  KernelLib.start_new_kernel None w.

End NosebookTwo.

Module NosebookThree.

(** [nb.metadata.kernelspec.name], each attribute raising when absent. *)
Definition kernel_name (nb : pyobj) : result string :=
  match nb with
  | NbFalse => Raise (AttributeError "bool" "metadata")
  | Nb d =>
      match md_kernelspec (metadata d) with
      | None => Raise (AttributeError "NotebookNode" "kernelspec")
      | Some ks =>
          match ks_name ks with
          | None => Raise (AttributeError "NotebookNode" "name")
          | Some name => Ok name
          end
      end
  end.

(** [utils.start_new_kernel(kernel_name=nb.metadata.kernelspec.name)]. *)
Definition newKernel (nb : pyobj) (w : world) : result nat * world :=
  match kernel_name nb with
  | Raise e => (Raise e, w)
  | Ok name => KernelLib.start_new_kernel (Some name) w
  end.

End NosebookThree.

(** ** class Nosebook *)
Module Nosebook.

(** [NosebookVersion]: the base class chosen by [IPYTHON_VERSION]. *)
Definition newKernel (E : env) : pyobj → world → result nat * world :=
  match IPYTHON_VERSION E with
  | IPython2 => NosebookTwo.newKernel
  | _ => NosebookThree.newKernel
  end.

(** [with open(filename) as f: return reads(f.read())]. *)
Definition _readnb (E : env) (filename : string) (w : world)
  : result (rawnb E) :=
  match files w !! filename with
  | None => Raise (IOError filename)
  | Some text => reads E text
  end.

(** The [try] covers [_readnb] only; [convert] runs outside it. *)
Definition readnb (E : env) (filename : string) (w : world)
  : result pyobj * world :=
  match _readnb E filename w with
  | Raise err =>
      (Ok NbFalse,
       log_info ("could not be parse as a notebook %s" +:+ nl +:+ "%s")
         [LStr filename; LExn err] w)
  | Ok nb => (nb4 ← convert E nb NBFORMAT_VERSION; Ok (Nb nb4), w)
  end.

(** The generator object made by [codeCells(nb)]: not started yet,
    inside the [for] loop with the cells still to visit, or finished. *)
Inductive cc_state :=
  | CcFresh (nb : pyobj)
  | CcLoop (pending : list cell)
  | CcDone.

Definition codeCells (nb : pyobj) : cc_state := CcFresh nb.

(** The [for] loop of [codeCells], from the cells still to visit. *)
Fixpoint cc_scan (pending : list cell) : gen_step cell * cc_state :=
  match pending with
  | [] => (Stop, CcDone)
  | c :: rest =>
      if bool_decide (cell_type c = "code") then (Yielded c, CcLoop rest)
      else cc_scan rest
  end.

Definition cc_next (g : cc_state) : gen_step cell * cc_state :=
  match g with
  | CcFresh NbFalse => (Raised (AttributeError "bool" "cells"), CcDone)
  | CcFresh (Nb nb) => cc_scan (cells nb)
  | CcLoop pending => cc_scan pending
  | CcDone => (Stop, CcDone)
  end.

(** Iterating a generator to its end, as [list(g)] does; [None] when the
    fuel runs out first. *)
Fixpoint cc_drain (fuel : nat) (g : cc_state) : option (result (list cell)) :=
  match fuel with
  | O => None
  | S fuel' =>
      match cc_next g with
      | (Yielded c, g') =>
          match cc_drain fuel' g' with
          | Some (Ok l) => Some (Ok (c :: l))
          | other => other
          end
      | (Stop, _) => Some (Ok [])
      | (Raised e, _) => Some (Raise e)
      end
  end.


(** The test [cell.cell_type == "code"] as a property of a cell. *)
Definition is_code (c : cell) : Prop := cell_type c = "code".

#[export] Instance is_code_dec c : Decision (is_code c).
Proof. unfold is_code. apply _. Defined.

(** [for cell in self.codeCells(nb): return True] asks the generator for
    one cell. *)
Definition wantFile (E : env) (filename : string) (w : world)
  : result bool * world :=
  let w := log_info "considering %s" [LStr filename] w in
  if negb (testMatch E filename) then (Ok false, w)
  else
    match readnb E filename w with
    | (Raise e, w) => (Raise e, w)
    | (Ok nb, w) =>
        match fst (cc_next (codeCells nb)) with
        | Yielded _ => (Ok true, w)
        | Raised e => (Raise e, w)
        | Stop => (Ok false, log_info "no `code` cells in %s" [LStr filename] w)
        end
    end.

(** The generator object made by [loadTestsFromFile(filename)]: not
    started yet, or inside the [for] loop with the kernel, the next index
    of [enumerate] and the generator of code cells, or finished. *)
Inductive ltf_state :=
  | LtfFresh (filename : string)
  | LtfLoop (filename : string) (k : nat) (cell_idx : nat) (cc : cc_state)
  | LtfDone.

Definition loadTestsFromFile (filename : string) : ltf_state :=
  LtfFresh filename.

(** One round of [for cell_idx, cell in enumerate(self.codeCells(nb))]. *)
Definition ltf_loop (filename : string) (k cell_idx : nat) (cc : cc_state)
  : gen_step NoseCellTestCase.testcase * ltf_state :=
  match cc_next cc with
  | (Yielded c, cc') =>
      (Yielded (NoseCellTestCase.init c cell_idx k filename),
       LtfLoop filename k (S cell_idx) cc')
  | (Stop, _) => (Stop, LtfDone)
  | (Raised e, _) => (Raised e, LtfDone)
  end.

(** One call of [next]: the body runs up to its next [yield]. *)
Definition ltf_next (E : env) (g : ltf_state) (w : world)
  : gen_step NoseCellTestCase.testcase * ltf_state * world :=
  match g with
  | LtfFresh filename =>
      match readnb E filename w with
      | (Raise e, w1) => (Raised e, LtfDone, w1)
      | (Ok nb, w1) =>
          match newKernel E nb w1 with
          | (Raise e, w2) => (Raised e, LtfDone, w2)
          | (Ok k, w2) => (ltf_loop filename k 0 (codeCells nb), w2)
          end
      end
  | LtfLoop filename k cell_idx cc => (ltf_loop filename k cell_idx cc, w)
  | LtfDone => (Stop, LtfDone, w)
  end.

(** Iterating the generator to its end: the tests yielded, the exception
    that ended it if one did, and the world after; [None] when the fuel
    runs out first. *)
Fixpoint ltf_drain (E : env) (fuel : nat) (g : ltf_state) (w : world)
  : option (list NoseCellTestCase.testcase * option exn * world) :=
  match fuel with
  | O => None
  | S fuel' =>
      match ltf_next E g w with
      | (Yielded t, g', w') =>
          match ltf_drain E fuel' g' w' with
          | Some (ts, e, w'') => Some (t :: ts, e, w'')
          | None => None
          end
      | (Stop, _, w') => Some ([], None, w')
      | (Raised e, _, w') => Some ([], Some e, w')
      end
  end.

End Nosebook.

(** ** The test runner's side *)


(** ** Vocabulary of the statements *)

(** A status message that says the kernel is idle. *)
Definition is_idle (m : message) : Prop :=
  msg_type m = "status" ∧ content m !! "execution_state" = Some (PStr "idle").

(** A status message carries its execution state. *)
Definition status_has_state (m : message) : Prop :=
  msg_type m = "status" → is_Some (content m !! "execution_state").

(** What a poll returns while the cell is still running and has not
    failed: a timeout, or a message that is neither the idle status nor an
    error. *)
Definition running (ev : option message) : Prop :=
  match ev with
  | None => True
  | Some m => status_has_state m ∧ ¬ is_idle m ∧ msg_type m ≠ "error"
  end.

(** [part] occurs in [whole]. *)
Definition contains (part whole : string) : Prop :=
  ∃ before after, whole = before +:+ part +:+ after.

(** Which kernels have not been shut down, in the order of the table. *)
Definition processes (w : world) : list bool := k_alive <$> kernels w.



(** ** Sample data *)
Module Sample.

Definition out_result : output :=
  {[ "output_type" := PStr "execute_result";
     "execution_count" := PInt 3;
     "data" := PDict [("text/plain", PStr "1")] ]}.

Definition out_error : output :=
  {[ "output_type" := PStr "error";
     "ename" := PStr "NameError";
     "traceback" := PList [PStr "Traceback"] ]}.

Definition out_stream : output :=
  {[ "output_type" := PStr "stream"; "text" := PStr "ok" ]}.

Definition cell_a : cell :=
  Cell "code" "x = 1" [out_stream] {[ "execution_count" := PInt 1 ]}.

Definition cell_md : cell := Cell "markdown" "# notes" [] ∅.

Definition cell_b : cell :=
  Cell "code" "assert x == 1" [out_result; out_error]
    {[ "execution_count" := PInt 2 ]}.

Definition nb : notebook :=
  Notebook [cell_a; cell_md; cell_b]
    {| md_kernelspec := Some {| ks_name := Some "python3" |} |}.

(** The default pattern [.*[Tt]est.*\.ipynb$] on names of one line. *)
Definition default_match (name : string) : bool :=
  let n := String.length name in
  let stem := String.substring 0 (n - 6) name in
  bool_decide (String.substring (n - 6) 6 name = ".ipynb")
  && (bool_decide (is_Some (String.index 0 "test" stem))
      || bool_decide (is_Some (String.index 0 "Test" stem))).

(** A notebook-format library that knows one text; [str] on the values
    that are not strings. *)
Definition E : env :=
  {| rawnb := notebook;
     IPYTHON_VERSION := IPython4;
     reads := λ text,
       if bool_decide (text = "{sample notebook}") then Ok nb
       else Raise (ReadError "Notebook does not appear to be JSON");
     convert := λ raw _, Ok raw;
     testMatch := default_match;
     py_repr := λ v,
       match v with
       | PNone => "None"
       | PBool true => "True"
       | PBool false => "False"
       | PInt z => pretty z
       | _ => "[...]"
       end |}.

Definition status (state : string) : message :=
  Message "status" {[ "execution_state" := PStr state ]}.

Definition busy : message := status "busy".
Definition idle : message := status "idle".

Definition stream_msg : message :=
  Message "stream" {[ "name" := PStr "stdout"; "text" := PStr "1" ]}.

Definition error_msg : message :=
  Message "error"
    {[ "ename" := PStr "ZeroDivisionError";
       "evalue" := PStr "division by zero";
       "traceback" := PList [PStr "Traceback (most recent call last)"] ]}.

(** Two files, no kernel yet, and kernels whose channel answers a first
    cell without output and a second one with an error. *)
Definition w : world :=
  {| files := {[ "test_ok.ipynb" := "{sample notebook}";
                 "test_bad.ipynb" := "<html>" ]};
     kernels := [];
     log := [];
     can_launch := λ _, true;
     kernel_io := λ _,
       [Some busy; None; Some idle;
        Some busy; Some stream_msg; Some error_msg; Some idle] |}.

(** The tests of the two code cells, on the first kernel. *)
Definition test_a : NoseCellTestCase.testcase :=
  NoseCellTestCase.init cell_a 0 0 "test_ok.ipynb".

Definition test_b : NoseCellTestCase.testcase :=
  NoseCellTestCase.init cell_b 1 0 "test_ok.ipynb".

(** A world with one kernel and the given deliveries on its channel. *)
Definition with_channel (ch : list (option message)) : world :=
  set_kernels [Kernel (Some "python3") true [] ch] w.

(** A kernel that answers at once that it is idle. *)
Definition w_idle : world := with_channel [Some idle; Some busy].

(** A kernel on which both cells raise: each cell's messages are busy,
    the error, idle. *)
Definition w_two_errors : world :=
  with_channel [Some busy; None; Some error_msg; Some idle;
                Some busy; Some error_msg; Some idle].

(** A notebook without code cells, and one whose metadata names no
    kernel. *)
Definition nb_plain : notebook :=
  Notebook [cell_md]
    {| md_kernelspec := Some {| ks_name := Some "python3" |} |}.

Definition nb_bare : notebook :=
  Notebook [cell_a; cell_b] {| md_kernelspec := None |}.

(** A notebook-format library that knows three texts. *)
Definition reads_more (text : string) : result notebook :=
  if bool_decide (text = "{sample notebook}") then Ok nb
  else if bool_decide (text = "{no code}") then Ok nb_plain
  else if bool_decide (text = "{no kernelspec}") then Ok nb_bare
  else Raise (ReadError "Notebook does not appear to be JSON").

(** The surroundings for a version of IPython and a [convert]. *)
Definition env_with (v : ipython_version)
    (conv : notebook → nat → result notebook) : env :=
  {| rawnb := notebook;
     IPYTHON_VERSION := v;
     reads := reads_more;
     convert := conv;
     testMatch := default_match;
     py_repr := py_repr E |}.

Definition E3 : env := env_with IPython3 (λ raw _, Ok raw).
Definition E2 : env := env_with IPython2 (λ raw _, Ok raw).

(** A [convert] that rejects every notebook. *)
Definition E_reject : env :=
  env_with IPython4 (λ _ _, Raise (ReadError "cannot convert")).

Definition w_more : world :=
  {| files := {[ "test_ok.ipynb" := "{sample notebook}";
                 "test_plain.ipynb" := "{no code}";
                 "test_bare.ipynb" := "{no kernelspec}";
                 "test_bad.ipynb" := "<html>";
                 "notes.ipynb" := "<html>" ]};
     kernels := [];
     log := [];
     can_launch := λ _, true;
     kernel_io := λ _, [Some busy; Some idle; Some busy; Some idle] |}.

(** A message of type status without its execution state, and an error
    message without the name of the error. *)
Definition status_bare : message := Message "status" ∅.

Definition error_unnamed : message :=
  Message "error"
    {[ "evalue" := PStr "division by zero";
       "traceback" := PList [PStr "Traceback (most recent call last)"] ]}.

End Sample.

(** What a poll returns when a message arrives in time. *)
Definition delivered (ev : option message) : Prop := is_Some ev.

#[export] Instance delivered_dec ev : Decision (delivered ev).
Proof. unfold delivered. apply _. Defined.

(** * Properties *)

Import NoseCellTestCase Nosebook.

(** ** CellSanitizer *)

Section Sanitizer.

Implicit Types (d : output) (c : cell) (key : string).

(** What [stripKeys] leaves under each key. *)
Lemma stripKeys_lookup d key :
  stripKeys d !! key =
    if bool_decide (key ∈ STRIP_KEYS) then None else d !! key.
Proof.
  unfold stripKeys, STRIP_KEYS. cbn [foldl].
  rewrite !lookup_delete.
  case_bool_decide as Hin; rewrite !elem_of_cons, elem_of_nil in Hin;
    repeat case_decide; subst; try done; intuition congruence.
Qed.

Lemma stripKeys_strip d key : key ∈ STRIP_KEYS → stripKeys d !! key = None.
Proof. intros Hin. rewrite stripKeys_lookup. by rewrite bool_decide_true. Qed.

Lemma stripKeys_keep d key : key ∉ STRIP_KEYS → stripKeys d !! key = d !! key.
Proof. intros Hin. rewrite stripKeys_lookup. by rewrite bool_decide_false. Qed.

Lemma stripKeys_idemp d : stripKeys (stripKeys d) = stripKeys d.
Proof.
  apply map_eq. intros key. rewrite (stripKeys_lookup (stripKeys d)).
  case_bool_decide; last done. by rewrite stripKeys_strip.
Qed.

Lemma stripKeys_absent d :
  Forall (λ key, d !! key = None) STRIP_KEYS → stripKeys d = d.
Proof.
  intros Habs. apply map_eq. intros key. rewrite stripKeys_lookup.
  case_bool_decide as Hin; last done.
  rewrite Forall_forall in Habs. symmetry. by apply Habs.
Qed.

End Sanitizer.

(** C6: the outputs of the sanitized cell are the outputs of the cell,
    as many and in the same places, each without the four keys
    execution_count, traceback, prompt_number and source, whichever of
    them it had; an output that had none of them is returned as it was,
    so an absent key is no error. *)
Theorem sanitizeCell_no_strip_key (c : cell) :
  STRIP_KEYS = ["execution_count"; "traceback"; "prompt_number"; "source"]
  ∧ length (outputs (sanitizeCell c)) = length (outputs c)
  ∧ (∀ (i : nat) (o : output), outputs c !! i = Some o →
       ∃ o' : output, outputs (sanitizeCell c) !! i = Some o'
         ∧ o' !! "execution_count" = None
         ∧ o' !! "traceback" = None
         ∧ o' !! "prompt_number" = None
         ∧ o' !! "source" = None
         ∧ (o !! "execution_count" = None → o !! "traceback" = None →
            o !! "prompt_number" = None → o !! "source" = None → o' = o)).
Proof.
  split; [done|]. split; [cbn; by rewrite length_fmap|].
  intros i o Hi. exists (stripKeys o).
  split; [cbn; by rewrite list_lookup_fmap, Hi|].
  repeat split;
    try (apply stripKeys_strip; unfold STRIP_KEYS; rewrite !elem_of_cons; tauto).
  intros H1 H2 H3 H4. apply stripKeys_absent. by repeat constructor.
Qed.

Lemma sanitizeCell_no_strip_key_witness :
  outputs Sample.cell_b !! 0 = Some Sample.out_result
  ∧ Sample.out_result !! "execution_count" = Some (PInt 3)
  ∧ (∃ o' : output, outputs (sanitizeCell Sample.cell_b) !! 0 = Some o'
       ∧ o' !! "execution_count" = None)
  ∧ outputs Sample.cell_a !! 0 = Some Sample.out_stream
  ∧ outputs (sanitizeCell Sample.cell_a) !! 0 = Some Sample.out_stream.
Proof.
  destruct (sanitizeCell_no_strip_key Sample.cell_b) as (_ & _ & Hb).
  destruct (Hb 0 Sample.out_result eq_refl) as (o' & Ho' & Hcount & _).
  destruct (sanitizeCell_no_strip_key Sample.cell_a) as (_ & _ & Ha).
  destruct (Ha 0 Sample.out_stream eq_refl) as (oa & Hoa & _ & _ & _ & _ & Hid).
  split; [reflexivity|]. split; [reflexivity|].
  split; [by exists o'|]. split; [reflexivity|].
  by rewrite Hoa, (Hid eq_refl eq_refl eq_refl eq_refl).
Defined.

(** C7: sanitization is idempotent: sanitizing a sanitized cell gives
    the same cell. *)
Theorem sanitizeCell_idempotent (c : cell) :
  sanitizeCell (sanitizeCell c) = sanitizeCell c.
Proof.
  unfold sanitizeCell. cbn. f_equal.
  rewrite <-list_fmap_compose. apply list_fmap_ext.
  intros _ d _. cbn. apply stripKeys_idemp.
Qed.

(** C10: sanitization changes nothing but the removal-set keys of the
    outputs: the type, the source and every other field of the cell are
    the same, the outputs are as many and in the same places, and in each
    output every key outside the removal set has the value it had. *)
Theorem sanitizeCell_frame (c : cell) :
  cell_type (sanitizeCell c) = cell_type c
  ∧ source (sanitizeCell c) = source c
  ∧ cell_extra (sanitizeCell c) = cell_extra c
  ∧ length (outputs (sanitizeCell c)) = length (outputs c)
  ∧ (∀ (i : nat) (o : output), outputs c !! i = Some o →
       ∃ o' : output, outputs (sanitizeCell c) !! i = Some o'
         ∧ ∀ key, key ∉ STRIP_KEYS → o' !! key = o !! key).
Proof.
  repeat split; try done.
  - cbn. by rewrite length_fmap.
  - intros i o Hi. exists (stripKeys o). split.
    + cbn. by rewrite list_lookup_fmap, Hi.
    + intros key Hkey. by apply stripKeys_keep.
Qed.

Lemma sanitizeCell_frame_witness :
  outputs Sample.cell_b !! 0 = Some Sample.out_result
  ∧ ("data" ∉ STRIP_KEYS)
  ∧ (∃ o' : output, outputs (sanitizeCell Sample.cell_b) !! 0 = Some o'
      ∧ o' !! "data" = Sample.out_result !! "data").
Proof.
  assert ("data" ∉ STRIP_KEYS) as Hk.
  { unfold STRIP_KEYS. rewrite !not_elem_of_cons.
    repeat split; try done. apply not_elem_of_nil. }
  split; [reflexivity|]. split; [exact Hk|].
  destruct (sanitizeCell_frame Sample.cell_b) as (_ & _ & _ & _ & H).
  destruct (H 0 Sample.out_result eq_refl) as (o' & Ho' & Hkeep).
  exists o'. split; [exact Ho'|]. exact (Hkeep "data" Hk).
Defined.

(** ** NotebookLoader: the generator of code cells *)

Section CodeCells.

(** Inside the loop, enough fuel drains the generator, and what it yields
    is the code cells still to visit, in their order. *)
Lemma cc_drain_loop (pending : list cell) (fuel : nat) :
  length pending < fuel →
  cc_drain fuel (CcLoop pending) = Some (Ok (filter is_code pending)).
Proof.
  revert fuel. induction pending as [|c rest IH]; intros fuel Hfuel.
  - destruct fuel; [lia|]. reflexivity.
  - destruct fuel as [|fuel]; [cbn in Hfuel; lia|].
    cbn in Hfuel. cbn [cc_drain cc_next cc_scan].
    case_bool_decide as Hc.
    + rewrite IH by lia. by rewrite filter_cons_True.
    + rewrite filter_cons_False by done.
      change (cc_drain (S fuel) (CcLoop rest) = Some (Ok (filter is_code rest))).
      apply IH. lia.
Qed.

Lemma cc_drain_fresh (d : notebook) (fuel : nat) :
  length (cells d) < fuel →
  cc_drain fuel (codeCells (Nb d)) = Some (Ok (filter is_code (cells d))).
Proof.
  intros Hfuel. rewrite <-(cc_drain_loop _ _ Hfuel).
  destruct fuel; [lia|]. reflexivity.
Qed.

(** The first cell asked of a fresh generator. *)
Lemma cc_next_fresh (d : notebook) :
  fst (cc_next (codeCells (Nb d))) =
    match filter is_code (cells d) with
    | [] => Stop
    | c :: _ => Yielded c
    end.
Proof.
  cbn. induction (cells d) as [|c rest IH]; [done|].
  cbn [cc_scan]. case_bool_decide.
  - by rewrite filter_cons_True.
  - by rewrite filter_cons_False.
Qed.

End CodeCells.

(** C8: iterating [codeCells(D)] to its end yields the cells of D whose
    type is "code", all of them and in the order of the document; and a
    second iteration of [codeCells(D)] yields the same sequence. *)
Theorem codeCells_code_cells_in_order (d : notebook) (fuel1 fuel2 : nat) :
  length (cells d) < fuel1 →
  length (cells d) < fuel2 →
  cc_drain fuel1 (codeCells (Nb d)) = Some (Ok (filter is_code (cells d)))
  ∧ cc_drain fuel2 (codeCells (Nb d)) = cc_drain fuel1 (codeCells (Nb d)).
Proof.
  intros H1 H2. by rewrite !cc_drain_fresh.
Qed.

Lemma codeCells_code_cells_in_order_witness :
  cc_drain 4 (codeCells (Nb Sample.nb)) = Some (Ok [Sample.cell_a; Sample.cell_b])
  ∧ cc_drain 7 (codeCells (Nb Sample.nb)) = cc_drain 4 (codeCells (Nb Sample.nb)).
Proof.
  apply (codeCells_code_cells_in_order Sample.nb 4 7); cbn; lia.
Defined.

(** ** The generator of cell tests *)

Section LoadTests.

Context (E : env).

Implicit Types (w : world) (d : notebook) (f : string).

(** A notebook read without error leaves the world as it was. *)
Lemma readnb_Nb f w d w1 : readnb E f w = (Ok (Nb d), w1) → w1 = w.
Proof.
  unfold readnb. destruct (_readnb E f w) as [raw|err]; [|done].
  by intros [= _ ->].
Qed.

(** What [readnb] returns depends on the file's content only. *)
Lemma readnb_same_file f w wb :
  files wb !! f = files w !! f → fst (readnb E f wb) = fst (readnb E f w).
Proof.
  intros Hf. unfold readnb, _readnb. rewrite Hf.
  by destruct (files w !! f) as [text|]; [destruct (reads E text)|].
Qed.

Lemma start_new_kernel_Ok name w k w2 :
  KernelLib.start_new_kernel name w = (Ok k, w2) →
  k = length (kernels w)
  ∧ w2 = set_kernels (kernels w ++ [Kernel name true [] (kernel_io w k)]) w.
Proof.
  unfold KernelLib.start_new_kernel. destruct (can_launch w name); [|done].
  by intros [= <- <-].
Qed.

Lemma start_new_kernel_Raise name w e w2 :
  KernelLib.start_new_kernel name w = (Raise e, w2) → w2 = w.
Proof.
  unfold KernelLib.start_new_kernel. destruct (can_launch w name); [done|].
  by intros [= _ <-].
Qed.

(** A successful [newKernel] adds one running kernel, the last of the
    table, and returns the reference to it. *)
Lemma newKernel_Ok nb w k w2 :
  newKernel E nb w = (Ok k, w2) →
  k = length (kernels w)
  ∧ ∃ name, w2 = set_kernels
                   (kernels w ++ [Kernel name true [] (kernel_io w k)]) w.
Proof.
  unfold newKernel, NosebookTwo.newKernel, NosebookThree.newKernel.
  intros H.
  destruct (IPYTHON_VERSION E);
    [|destruct (NosebookThree.kernel_name nb); [|done]..];
    apply start_new_kernel_Ok in H as [-> ->]; eauto.
Qed.

Lemma newKernel_Raise nb w e w2 : newKernel E nb w = (Raise e, w2) → w2 = w.
Proof.
  unfold newKernel, NosebookTwo.newKernel, NosebookThree.newKernel.
  intros H.
  destruct (IPYTHON_VERSION E);
    [|destruct (NosebookThree.kernel_name nb); [|by injection H]..];
    by apply start_new_kernel_Raise in H.
Qed.

(** Inside the loop the generator yields one test for each code cell
    still to visit, numbered from the current index, all with the same
    kernel and file name, and the world stays as it is. *)
Lemma ltf_drain_loop f k (pending : list cell) (i fuel : nat) w :
  length pending < fuel →
  ltf_drain E fuel (LtfLoop f k i (CcLoop pending)) w =
    Some (imap (λ j c, init c (i + j) k f) (filter is_code pending), None, w).
Proof.
  revert i fuel. induction pending as [|c rest IH]; intros i fuel Hfuel.
  - destruct fuel; [lia|]. reflexivity.
  - destruct fuel as [|fuel]; [cbn in Hfuel; lia|]. cbn in Hfuel.
    cbn [ltf_drain ltf_next]. unfold ltf_loop. cbn [cc_next cc_scan].
    case_bool_decide as Hc.
    + rewrite IH by lia. rewrite filter_cons_True by done.
      cbn [imap]. rewrite Nat.add_0_r. do 4 f_equal.
      apply imap_ext. intros j c' _. cbn. f_equal. lia.
    + rewrite filter_cons_False by done.
      change (ltf_drain E (S fuel) (LtfLoop f k i (CcLoop rest)) w =
              Some (imap (λ j c, init c (i + j) k f) (filter is_code rest),
                    None, w)).
      apply IH. lia.
Qed.

(** The whole run of the generator on a file that reads as a notebook
    and whose kernel starts. *)
Lemma ltf_drain_fresh f w d w1 k w2 fuel :
  readnb E f w = (Ok (Nb d), w1) →
  newKernel E (Nb d) w1 = (Ok k, w2) →
  length (cells d) < fuel →
  ltf_drain E fuel (loadTestsFromFile f) w =
    Some (imap (λ j c, init c j k f) (filter is_code (cells d)), None, w2).
Proof.
  intros Hread Hkernel Hfuel.
  transitivity (ltf_drain E fuel (LtfLoop f k 0 (CcLoop (cells d))) w2).
  - destruct fuel as [|fuel]; [lia|].
    cbn [ltf_drain ltf_next loadTestsFromFile]. by rewrite Hread, Hkernel.
  - by rewrite ltf_drain_loop.
Qed.

(** More fuel does not change a finished run. *)
Lemma ltf_drain_more fuel g w r :
  ltf_drain E fuel g w = Some r → ∀ n, ltf_drain E (fuel + n) g w = Some r.
Proof.
  revert g w r. induction fuel as [|fuel IH]; intros g w r Hr n; [done|].
  cbn [ltf_drain Nat.add] in Hr |- *.
  destruct (ltf_next E g w) as [[[t| |e] g'] w']; try done.
  destruct (ltf_drain E fuel g' w') as [[[ts e] w'']|] eqn:Hd; [|done].
  by rewrite (IH _ _ _ Hd n).
Qed.

Lemma readnb_kernels f w :
  kernels (snd (readnb E f w)) = kernels w.
Proof.
  unfold readnb. by destruct (_readnb E f w) as [raw|err].
Qed.

(** How a run of the generator can end: with no test and an exception, or
    with the tests of the code cells of the notebook read and no
    exception; and at most one kernel, a running one, has been added. *)
Lemma ltf_drain_inv f w fuel ts e w' :
  ltf_drain E fuel (loadTestsFromFile f) w = Some (ts, e, w') →
  (kernels w' = kernels w
   ∨ ∃ name io, kernels w' = (kernels w ++ [Kernel name true [] io])%list)
  ∧ ((ts = [] ∧ is_Some e)
     ∨ ∃ d k, readnb E f w = (Ok (Nb d), w)
         ∧ newKernel E (Nb d) w = (Ok k, w')
         ∧ ts = imap (λ j c, init c j k f) (filter is_code (cells d))
         ∧ e = None).
Proof.
  intros Hd. destruct fuel as [|fuel]; [done|].
  pose proof Hd as Hd0.
  cbn [ltf_drain ltf_next loadTestsFromFile] in Hd.
  pose proof (readnb_kernels f w) as Hk1.
  destruct (readnb E f w) as [[nb|e1] w1] eqn:Hread; cbn in Hk1.
  2:{ injection Hd as <- <- <-. rewrite Hk1. eauto. }
  destruct (newKernel E nb w1) as [[k|e2] w2] eqn:Hkernel.
  2:{ apply newKernel_Raise in Hkernel as ->.
      injection Hd as <- <- <-. rewrite Hk1. eauto. }
  pose proof Hkernel as Hkernel0.
  apply newKernel_Ok in Hkernel as (-> & name & ->).
  destruct nb as [|d].
  { injection Hd as <- <- <-. cbn. rewrite Hk1. eauto 10. }
  apply readnb_Nb in Hread as Hw. subst w1.
  pose proof (ltf_drain_fresh f w d w _ _ (S (length (cells d)))
                Hread Hkernel0 (Nat.lt_succ_diag_r _)) as Hfull.
  apply ltf_drain_more with (n := S (length (cells d))) in Hd0.
  apply ltf_drain_more with (n := S fuel) in Hfull.
  rewrite (Nat.add_comm (S fuel)) in Hd0. rewrite Hd0 in Hfull.
  injection Hfull as -> -> ->. split; [cbn; eauto|].
  right. by exists d, (length (kernels w)).
Qed.


End LoadTests.

Section TestList.

Context (k : nat) (f : string).

Implicit Types (l : list cell).



Lemma tests_ids l :
  NoseCellTestCase.id <$> imap (λ j c, init c j k f) l =
    imap (λ j _, f +:+ "#" +:+ pretty j) l.
Proof.
  apply list_eq. intros i.
  rewrite list_lookup_fmap, !list_lookup_imap. by destruct (l !! i).
Qed.


End TestList.

Section LoadWorld.

Context (E : env).



End LoadWorld.




(** C9: the identifier of a test produced from a file is the path of the
    file, "#", and the position of its cell among the code cells of the
    document, counted from 0; loading the same file again, with the same
    content, gives the same identifiers for the corresponding cells. *)
Theorem test_id_path_and_index (E : env) (f : string) (w : world)
    (fuel : nat) (ts : list testcase) (e : option exn) (w' : world) :
  ltf_drain E fuel (loadTestsFromFile f) w = Some (ts, e, w') →
  (∀ i t, ts !! i = Some t →
     NoseCellTestCase.id t = f +:+ "#" +:+ pretty i
     ∧ ∃ d c, fst (readnb E f w) = Ok (Nb d)
         ∧ filter is_code (cells d) !! i = Some c
         ∧ t_cell t = sanitizeCell c)
  ∧ (∀ wb fuelb tsb eb wb',
       files wb !! f = files w !! f →
       ltf_drain E fuelb (loadTestsFromFile f) wb = Some (tsb, eb, wb') →
       (∀ i t tb, ts !! i = Some t → tsb !! i = Some tb →
          NoseCellTestCase.id tb = NoseCellTestCase.id t)
       ∧ (e = None → eb = None →
          NoseCellTestCase.id <$> tsb = NoseCellTestCase.id <$> ts)).
Proof.
  intros Hd.
  assert (∀ wa fuela tsa ea wa' i t,
    ltf_drain E fuela (loadTestsFromFile f) wa = Some (tsa, ea, wa') →
    tsa !! i = Some t →
    NoseCellTestCase.id t = f +:+ "#" +:+ pretty i
    ∧ ∃ d c, fst (readnb E f wa) = Ok (Nb d)
        ∧ filter is_code (cells d) !! i = Some c
        ∧ t_cell t = sanitizeCell c) as Hone.
  { intros wa fuela tsa ea wa' i t Ha Hi.
    apply ltf_drain_inv in Ha
      as [_ [[-> _]|(d & k & Hread & _ & -> & _)]]; [done|].
    apply list_lookup_imap_Some in Hi as (c & Hc & ->).
    split; [done|]. exists d, c. by rewrite Hread. }
  split; [intros i t; by apply (Hone w fuel ts e w')|].
  intros wb fuelb tsb eb wb' Hfile Hb. split.
  - intros i t tb Ht Htb.
    destruct (Hone _ _ _ _ _ _ _ Hd Ht) as [-> _].
    by destruct (Hone _ _ _ _ _ _ _ Hb Htb) as [-> _].
  - intros -> ->.
    apply ltf_drain_inv in Hd
      as [_ [[_ [? [=]]]|(d & k & Hread & _ & -> & _)]].
    apply ltf_drain_inv in Hb
      as [_ [[_ [? [=]]]|(db & kb & Hreadb & _ & -> & _)]].
    apply readnb_same_file with (E := E) in Hfile.
    rewrite Hread, Hreadb in Hfile. injection Hfile as ->.
    by rewrite !tests_ids.
Qed.

Lemma test_id_path_and_index_witness :
  ∃ ts w',
    ltf_drain Sample.E 4 (loadTestsFromFile "test_ok.ipynb") Sample.w
      = Some (ts, None, w')
    ∧ NoseCellTestCase.id <$> ts = ["test_ok.ipynb#0"; "test_ok.ipynb#1"]
    ∧ ∀ i t, ts !! i = Some t →
        NoseCellTestCase.id t = "test_ok.ipynb" +:+ "#" +:+ pretty i.
Proof.
  eexists _, _. split; [vm_compute; reflexivity|].
  split; [vm_compute; reflexivity|].
  intros i t Hi.
  exact (proj1 (proj1 (test_id_path_and_index Sample.E "test_ok.ipynb"
                         Sample.w 4 _ None _ eq_refl) i t Hi)).
Defined.

(** ** A file that does not parse *)

(** C1, on the code: for a file whose name matches the pattern and whose
    content [reads] rejects, [readnb] logs the error and returns [False];
    [wantFile] then iterates [codeCells(False)], and the access to
    [nb.cells] raises [AttributeError] out of [wantFile] instead of the
    answer [False]; [loadTestsFromFile] raises on that file as well. *)
Theorem wantFile_unparsable_raises (E : env) (f text : string) (w : world)
    (err : exn) :
  files w !! f = Some text →
  reads E text = Raise err →
  testMatch E f = true →
  let parse_log :=
    log_info ("could not be parse as a notebook %s" +:+ nl +:+ "%s")
      [LStr f; LExn err] in
  readnb E f w = (Ok NbFalse, parse_log w)
  ∧ wantFile E f w =
      (Raise (AttributeError "bool" "cells"),
       parse_log (log_info "considering %s" [LStr f] w))
  ∧ ∃ e, (ltf_next E (loadTestsFromFile f) w).1.1 = Raised e.
Proof.
  intros Hfile Hreads Hmatch parse_log.
  assert (∀ w0, files w0 = files w →
            readnb E f w0 = (Ok NbFalse, parse_log w0)) as Hread.
  { intros w0 Hw0. unfold readnb, _readnb. by rewrite Hw0, Hfile, Hreads. }
  split; [by apply Hread|]. split.
  - unfold wantFile. rewrite Hmatch. cbn [negb]. by rewrite Hread.
  - cbn [ltf_next loadTestsFromFile]. rewrite Hread by done.
    unfold newKernel, NosebookTwo.newKernel, NosebookThree.newKernel,
      KernelLib.start_new_kernel.
    destruct (IPYTHON_VERSION E); cbn; [|eauto..].
    destruct (can_launch w None); cbn; eauto.
Qed.

Lemma wantFile_unparsable_raises_witness :
  Sample.default_match "test_bad.ipynb" = true
  ∧ (wantFile Sample.E "test_bad.ipynb" Sample.w).1
      = Raise (AttributeError "bool" "cells").
Proof.
  split; [reflexivity|].
  destruct (wantFile_unparsable_raises Sample.E "test_bad.ipynb" "<html>"
              Sample.w (ReadError "Notebook does not appear to be JSON")
              eq_refl eq_refl eq_refl) as (_ & Hwant & _).
  by rewrite Hwant.
Defined.

(** ** CellExecutionRunner *)

Section Runner.

Context (E : env).

Implicit Types (m : message) (c : cell) (w : world) (t : testcase).

Lemma shouldContinue_false m :
  shouldContinue (Some m) = Ok false ↔ is_idle m.
Proof.
  unfold shouldContinue, is_idle, getitem. split.
  - case_bool_decide as Hs; [|done].
    destruct (content m !! "execution_state") as [[| | |s| |]|]; try done.
    cbn. case_bool_decide as Hidle; [|done]. by subst.
  - intros [Hs Hst]. rewrite bool_decide_true by done. by rewrite Hst.
Qed.

Lemma shouldContinue_true m :
  status_has_state m → ¬ is_idle m → shouldContinue (Some m) = Ok true.
Proof.
  unfold shouldContinue, is_idle, status_has_state, getitem.
  intros Hst Hidle. case_bool_decide as Hs; [|done].
  destruct (Hst Hs) as [v Hv]. rewrite Hv. cbn.
  destruct v as [| | |s| |]; try done. cbn.
  case_bool_decide as Hi; [|done]. subst. tauto.
Qed.

(** Polls that find the cell still running are skipped by the loop. *)
Lemma poll_running c (pre rest : list (option message)) msg :
  shouldContinue msg = Ok true →
  Forall running pre →
  ∃ msg', shouldContinue msg' = Ok true
        ∧ poll E c msg (pre ++ rest) = poll E c msg' rest.
Proof.
  intros Hmsg Hpre. revert msg Hmsg.
  induction Hpre as [|ev pre Hev _ IH]; intros msg Hmsg; [by exists msg|].
  cbn [app poll]. rewrite Hmsg. destruct ev as [m|]; [|by apply IH].
  destruct Hev as (Hst & Hidle & Herr).
  rewrite bool_decide_false by done.
  apply IH. by apply shouldContinue_true.
Qed.

Lemma iopub_execute k code w :
  KernelLib.iopub k (KernelLib.execute k code w) = KernelLib.iopub k w.
Proof.
  unfold KernelLib.iopub, KernelLib.execute. cbn.
  rewrite list_lookup_alter_eq. by destruct (kernels w !! k).
Qed.

Lemma iopub_add_logs k (dbg : list logrec) w :
  KernelLib.iopub k (foldl (λ w r, add_log r w) w dbg) = KernelLib.iopub k w.
Proof.
  revert w. induction dbg as [|r dbg IH]; intros w; [done|].
  cbn [foldl]. by rewrite IH.
Qed.

Lemma iopub_set_iopub k ch w :
  k < length (kernels w) →
  KernelLib.iopub k (KernelLib.set_iopub k ch w) = ch.
Proof.
  intros [kn Hkn]%lookup_lt_is_Some.
  unfold KernelLib.iopub, KernelLib.set_iopub. cbn.
  by rewrite list_lookup_alter_eq, Hkn.
Qed.

(** A channel with something on it belongs to a kernel of the table. *)
Lemma iopub_cons_lt k w ev rest :
  KernelLib.iopub k w = ev :: rest → k < length (kernels w).
Proof.
  unfold KernelLib.iopub. intros H. apply lookup_lt_is_Some.
  by destruct (kernels w !! k).
Qed.

(** What [runTest] returns and leaves on the channel, from what the loop
    does on the channel as it is found. *)
Lemma runTest_poll t w o rest dbg :
  0 < length (KernelLib.iopub (t_kernel t) w) →
  poll E (t_cell t) None (KernelLib.iopub (t_kernel t) w) = (o, rest, dbg) →
  (runTest E t w).1 = o
  ∧ KernelLib.iopub (t_kernel t) (runTest E t w).2 = rest.
Proof.
  intros Hlen Hpoll. unfold runTest. rewrite iopub_execute, Hpoll. cbn.
  split; [done|]. rewrite iopub_add_logs. apply iopub_set_iopub.
  unfold KernelLib.execute. cbn. rewrite length_alter.
  destruct (KernelLib.iopub (t_kernel t) w) as [|ev l] eqn:Hio;
    [cbn in Hlen; lia|].
  by apply iopub_cons_lt in Hio.
Qed.

End Runner.

Section Strings.

Lemma append_assoc (a b c : string) : (a +:+ b) +:+ c = a +:+ b +:+ c.
Proof.
  induction a as [|x a IH]; [done|].
  change (String x ((a +:+ b) +:+ c) = String x (a +:+ b +:+ c)).
  by rewrite IH.
Qed.

Lemma append_nil_r (a : string) : a +:+ "" = a.
Proof.
  induction a as [|x a IH]; [done|].
  change (String x (a +:+ "") = String x a). by rewrite IH.
Qed.

Lemma contains_start (part after : string) : contains part (part +:+ after).
Proof. by exists "", after. Qed.

Lemma contains_append_r (part whole before : string) :
  contains part whole → contains part (before +:+ whole).
Proof.
  intros (b & a & ->). exists (before +:+ b), a. by rewrite append_assoc.
Qed.

Lemma contains_end (before part : string) : contains part (before +:+ part).
Proof. exists before, "". by rewrite append_nil_r. Qed.

End Strings.

Section RunTest.

Context (E : env).

Implicit Types (m : message) (c : cell) (w : world) (t : testcase).

(** The text of the exception names the source of the cell, the error
    name and the error value. *)
Lemma error_text_contains c (ename evalue : pyval) :
  contains (source c) (error_text E c ename evalue)
  ∧ contains (fmt_s E ename) (error_text E c ename evalue)
  ∧ contains (fmt_s E evalue) (error_text E c ename evalue).
Proof.
  unfold error_text. repeat split.
  - do 4 apply contains_append_r. apply contains_start.
  - do 6 apply contains_append_r. apply contains_start.
  - do 7 apply contains_append_r. apply contains_end.
Qed.

(** The loop is over once the last message is the idle status. *)
Lemma poll_stop c msg (chan : list (option message)) :
  shouldContinue msg = Ok false → poll E c msg chan = (Passed, chan, []).
Proof. intros H. destruct chan as [|[m|] rest]; cbn; by rewrite H. Qed.

(** An idle status as the first message ends the loop at once. *)
Lemma poll_idle_first c m (rest : list (option message)) :
  is_idle m → poll E c None (Some m :: rest) = (Passed, rest, []).
Proof.
  intros Hidle. cbn [poll shouldContinue].
  rewrite bool_decide_false by (destruct Hidle as [-> _]; done).
  apply poll_stop. by apply shouldContinue_false.
Qed.

(** An error message reached while the cell is running ends the loop
    with the exception, and what follows it stays on the channel. *)
Lemma poll_error c (pre post : list (option message)) m
    (tb ename evalue : pyval) :
  Forall running pre →
  msg_type m = "error" →
  content m !! "traceback" = Some tb →
  content m !! "ename" = Some ename →
  content m !! "evalue" = Some evalue →
  poll E c None (pre ++ Some m :: post) =
    (Failed (Exception (error_text E c ename evalue)), post,
     [LogRec DEBUG (LVal tb) []]).
Proof.
  intros Hpre Htype Htb Hen Hev.
  destruct (poll_running E c pre (Some m :: post) None eq_refl Hpre)
    as (msg' & Hmsg' & ->).
  cbn [poll]. rewrite Hmsg', bool_decide_true by done.
  unfold on_error, getitem. by rewrite Htb, Hen, Hev.
Qed.

End RunTest.

(** C3, as the code has it: [shouldContinue] answers True when no
    message has been seen yet, False exactly on a status message whose
    execution state is idle, True on every message of another type and on
    every status message with another execution state, and raises
    [KeyError] on a status message whose content has no execution state;
    so a cell whose first message is the idle status passes, with nothing
    else read from the channel. *)
Theorem shouldContinue_stops_on_idle_only (E : env) (m : message) :
  shouldContinue None = Ok true
  ∧ (shouldContinue (Some m) = Ok false ↔ is_idle m)
  ∧ (msg_type m ≠ "status" → shouldContinue (Some m) = Ok true)
  ∧ (∀ v, msg_type m = "status" →
       content m !! "execution_state" = Some v → v ≠ PStr "idle" →
       shouldContinue (Some m) = Ok true)
  ∧ (msg_type m = "status" → content m !! "execution_state" = None →
     shouldContinue (Some m) = Raise (KeyError "execution_state"))
  ∧ (is_idle m →
     ∀ (t : testcase) (w : world) (rest : list (option message)),
       KernelLib.iopub (t_kernel t) w = Some m :: rest →
       (runTest E t w).1 = Passed
       ∧ KernelLib.iopub (t_kernel t) (runTest E t w).2 = rest).
Proof.
  split; [done|]. split; [apply shouldContinue_false|].
  split; [|split; [|split]].
  - intros Htype. apply shouldContinue_true; [by intros ?|by intros [? _]].
  - intros v Htype Hv Hne. apply shouldContinue_true.
    + intros _. by exists v.
    + intros [_ Hidle]. rewrite Hv in Hidle. by injection Hidle.
  - intros Htype Hnone. unfold shouldContinue, getitem.
    by rewrite bool_decide_true, Hnone.
  - intros Hidle t w rest Hio.
    apply runTest_poll with (dbg := []); rewrite Hio; [cbn; lia|].
    by apply poll_idle_first.
Qed.

Lemma shouldContinue_stops_on_idle_only_witness :
  shouldContinue (Some Sample.stream_msg) = Ok true
  ∧ shouldContinue (Some Sample.busy) = Ok true
  ∧ shouldContinue (Some Sample.status_bare)
    = Raise (KeyError "execution_state")
  ∧ (is_idle Sample.idle
     ∧ KernelLib.iopub (t_kernel Sample.test_a) Sample.w_idle
         = [Some Sample.idle; Some Sample.busy]
     ∧ (runTest Sample.E Sample.test_a Sample.w_idle).1 = Passed).
Proof.
  assert (is_idle Sample.idle) as Hidle by done.
  destruct (shouldContinue_stops_on_idle_only Sample.E Sample.stream_msg)
    as (_ & _ & Hother & _).
  destruct (shouldContinue_stops_on_idle_only Sample.E Sample.busy)
    as (_ & _ & _ & Hbusy & _).
  destruct (shouldContinue_stops_on_idle_only Sample.E Sample.status_bare)
    as (_ & _ & _ & _ & Hbare & _).
  destruct (shouldContinue_stops_on_idle_only Sample.E Sample.idle)
    as (_ & _ & _ & _ & _ & Hpass).
  split; [apply Hother; discriminate|].
  split; [apply (Hbusy (PStr "busy")); [reflexivity..|discriminate]|].
  split; [apply Hbare; reflexivity|].
  split; [exact Hidle|]. split; [reflexivity|].
  exact (proj1 (Hpass Hidle Sample.test_a Sample.w_idle [Some Sample.busy]
                  eq_refl)).
Defined.

(** C3, as stated, fails: a status message without execution state is
    not the idle status, and [shouldContinue] does not answer True on it
    but raises [KeyError]. *)
Lemma shouldContinue_status_without_state :
  ¬ is_idle Sample.status_bare
  ∧ shouldContinue (Some Sample.status_bare)
    = Raise (KeyError "execution_state")
  ∧ shouldContinue (Some Sample.status_bare) ≠ Ok true.
Proof.
  split; [by intros [_ ?]|]. split; [reflexivity|discriminate].
Qed.

(** What holds of an error message on the code: when the polls of
    [runTest] reach a message of type [error] before any idle status, the
    test fails with an exception whose text contains the source of the
    cell, the error name and the error value, and the messages after the
    error stay on the channel. *)
Lemma runTest_error_raises (E : env) (t : testcase) (w : world)
    (pre post : list (option message)) (err : message)
    (tb ename evalue : pyval) :
  KernelLib.iopub (t_kernel t) w = (pre ++ Some err :: post)%list →
  Forall running pre →
  msg_type err = "error" →
  content err !! "traceback" = Some tb →
  content err !! "ename" = Some ename →
  content err !! "evalue" = Some evalue →
  ∃ text,
    (runTest E t w).1 = Failed (Exception text)
    ∧ contains (source (t_cell t)) text
    ∧ contains (fmt_s E ename) text
    ∧ contains (fmt_s E evalue) text
    ∧ KernelLib.iopub (t_kernel t) (runTest E t w).2 = post.
Proof.
  intros Hio Hpre Htype Htb Hen Hev.
  exists (error_text E (t_cell t) ename evalue).
  destruct (error_text_contains E (t_cell t) ename evalue) as (Hs & Hn & Hv).
  assert ((runTest E t w).1
            = Failed (Exception (error_text E (t_cell t) ename evalue))
          ∧ KernelLib.iopub (t_kernel t) (runTest E t w).2 = post) as [Ho Hpost].
  { apply runTest_poll with (dbg := [LogRec DEBUG (LVal tb) []]);
      rewrite Hio; [rewrite length_app; cbn; lia|].
    by apply poll_error. }
  done.
Qed.

(** C4, on the code: [runTest] raises on the error message and leaves the
    idle status that ends the failed cell's messages on the channel; the
    test of the next cell of the document, on the same kernel, finds that
    idle status first and passes without reading any message of its own
    cell, whatever they are, an error included. *)
Theorem runTest_after_error_passes (E : env) (t1 t2 : testcase) (w : world)
    (pre rest : list (option message)) (err idle_m : message)
    (tb ename evalue : pyval) :
  t_kernel t2 = t_kernel t1 →
  KernelLib.iopub (t_kernel t1) w
    = (pre ++ Some err :: Some idle_m :: rest)%list →
  Forall running pre →
  msg_type err = "error" →
  content err !! "traceback" = Some tb →
  content err !! "ename" = Some ename →
  content err !! "evalue" = Some evalue →
  is_idle idle_m →
  (∃ text, (runTest E t1 w).1 = Failed (Exception text)
     ∧ contains (source (t_cell t1)) text
     ∧ contains (fmt_s E ename) text
     ∧ contains (fmt_s E evalue) text)
  ∧ (runTest E t2 (runTest E t1 w).2).1 = Passed
  ∧ KernelLib.iopub (t_kernel t2) (runTest E t2 (runTest E t1 w).2).2 = rest.
Proof.
  intros Hk Hio Hpre Htype Htb Hen Hev Hidle.
  destruct (runTest_error_raises E t1 w pre (Some idle_m :: rest) err
              tb ename evalue Hio Hpre Htype Htb Hen Hev)
    as (text & Ho & Hs & Hn & Hv & Hleft).
  split; [by exists text|].
  rewrite <-Hk in Hleft.
  apply runTest_poll with (dbg := []); rewrite Hleft; [cbn; lia|].
  by apply poll_idle_first.
Qed.

Lemma runTest_after_error_passes_witness :
  KernelLib.iopub 0 Sample.w_two_errors
    = [Some Sample.busy; None; Some Sample.error_msg; Some Sample.idle;
       Some Sample.busy; Some Sample.error_msg; Some Sample.idle]
  ∧ (∃ text, (runTest Sample.E Sample.test_a Sample.w_two_errors).1
               = Failed (Exception text))
  ∧ (runTest Sample.E Sample.test_b
       (runTest Sample.E Sample.test_a Sample.w_two_errors).2).1 = Passed
  ∧ KernelLib.iopub 0
      (runTest Sample.E Sample.test_b
         (runTest Sample.E Sample.test_a Sample.w_two_errors).2).2
    = [Some Sample.busy; Some Sample.error_msg; Some Sample.idle].
Proof.
  assert (Forall running [Some Sample.busy; None]) as Hpre.
  { repeat constructor.
    - intros _. by eexists.
    - intros [_ H]. vm_compute in H. discriminate.
    - discriminate. }
  destruct (runTest_after_error_passes Sample.E Sample.test_a Sample.test_b
              Sample.w_two_errors [Some Sample.busy; None]
              [Some Sample.busy; Some Sample.error_msg; Some Sample.idle]
              Sample.error_msg Sample.idle
              (PList [PStr "Traceback (most recent call last)"])
              (PStr "ZeroDivisionError") (PStr "division by zero")
              eq_refl eq_refl Hpre eq_refl eq_refl eq_refl eq_refl
              (conj eq_refl eq_refl))
    as ((text & Ho & _) & Hpass & Hrest).
  split; [reflexivity|]. split; [by exists text|]. split; [exact Hpass|].
  exact Hrest.
Defined.

(** ** The life of the kernel *)

Section KernelLife.

Context (E : env).

Implicit Types (w : world) (t : testcase).





Lemma alive_processes k w :
  KernelLib.alive k w = default false (processes w !! k).
Proof.
  unfold KernelLib.alive, processes. rewrite list_lookup_fmap.
  by destruct (kernels w !! k).
Qed.

End KernelLife.




(** * Further properties of the loader *)

Section Loader.

Context (E : env).

Implicit Types (w : world) (d : notebook) (f : string).

Lemma readnb_parsed f w text (raw : rawnb E) d :
  files w !! f = Some text →
  reads E text = Ok raw →
  convert E raw NBFORMAT_VERSION = Ok d →
  readnb E f w = (Ok (Nb d), w).
Proof.
  intros Hf Hr Hc. unfold readnb, _readnb. by rewrite Hf, Hr, Hc.
Qed.

(** [readnb] changes the log only. *)
Lemma readnb_frame f w :
  files (readnb E f w).2 = files w
  ∧ kernels (readnb E f w).2 = kernels w
  ∧ can_launch (readnb E f w).2 = can_launch w
  ∧ kernel_io (readnb E f w).2 = kernel_io w.
Proof. unfold readnb. by destruct (_readnb E f w). Qed.

Lemma filter_is_code_nil (l : list cell) :
  Forall (λ c, ¬ is_code c) l → filter is_code l = [].
Proof. induction 1 as [|c l Hc _ IH]; [done|]. by rewrite filter_cons_False. Qed.

(** The name under which [newKernel] starts the kernel. *)
Lemma newKernel_Ok_name nb w k w2 :
  newKernel E nb w = (Ok k, w2) →
  ∃ name,
    w2 = set_kernels
           (kernels w ++ [Kernel name true [] (kernel_io w (length (kernels w)))])
           w
    ∧ (IPYTHON_VERSION E = IPython2 → name = None)
    ∧ (IPYTHON_VERSION E ≠ IPython2 →
       ∃ n, name = Some n ∧ NosebookThree.kernel_name nb = Ok n).
Proof.
  unfold newKernel, NosebookTwo.newKernel, NosebookThree.newKernel.
  intros H.
  destruct (IPYTHON_VERSION E);
    [|destruct (NosebookThree.kernel_name nb) as [n|] eqn:Hn; [|done]..];
    apply start_new_kernel_Ok in H as [-> ->];
    eexists; (split; [done|]); split; try done; eauto.
Qed.

End Loader.

(** X1: [readnb] raises exactly when the file is there, [reads] accepts
    its content and [convert] raises, and then with the exception of
    [convert]; it returns [False] exactly when the file cannot be opened
    or [reads] rejects its content. *)
Theorem readnb_raises_only_from_convert (E : env) (f : string) (w : world) :
  (∀ e, (readnb E f w).1 = Raise e ↔
        ∃ text raw, files w !! f = Some text ∧ reads E text = Ok raw
          ∧ convert E raw NBFORMAT_VERSION = Raise e)
  ∧ ((readnb E f w).1 = Ok NbFalse ↔
       files w !! f = None
       ∨ ∃ text err, files w !! f = Some text ∧ reads E text = Raise err).
Proof.
  unfold readnb, _readnb. split; [intros e|]; split.
  - destruct (files w !! f) as [text|]; [|done].
    destruct (reads E text) as [raw|] eqn:Hr; [|done]. cbn.
    destruct (convert E raw NBFORMAT_VERSION) eqn:Hc; [done|].
    intros [= ->]. eauto.
  - intros (text & raw & -> & -> & Hc). cbn. by rewrite Hc.
  - destruct (files w !! f) as [text|]; [|by left].
    destruct (reads E text) as [raw|err] eqn:Hr; [|right; eauto]. cbn.
    by destruct (convert E raw NBFORMAT_VERSION).
  - intros [->|(text & err & -> & ->)]; done.
Qed.

Lemma readnb_raises_only_from_convert_witness :
  (readnb Sample.E_reject "test_ok.ipynb" Sample.w_more).1
    = Raise (ReadError "cannot convert")
  ∧ (readnb Sample.E_reject "absent.ipynb" Sample.w_more).1 = Ok NbFalse.
Proof.
  destruct (readnb_raises_only_from_convert Sample.E_reject "test_ok.ipynb"
              Sample.w_more) as [Hraise _].
  destruct (readnb_raises_only_from_convert Sample.E_reject "absent.ipynb"
              Sample.w_more) as [_ Hfalse].
  split.
  - apply Hraise. by exists "{sample notebook}", Sample.nb.
  - apply Hfalse. by left.
Defined.

(** X2: an exception of [convert] is caught nowhere: it comes out of
    [wantFile] (for a name that matches) and out of the first [next] of
    [loadTestsFromFile], which then has started no kernel. *)
Theorem convert_error_propagates (E : env) (f text : string) (w : world)
    (raw : rawnb E) (e : exn) :
  files w !! f = Some text →
  reads E text = Ok raw →
  convert E raw NBFORMAT_VERSION = Raise e →
  testMatch E f = true →
  (wantFile E f w).1 = Raise e
  ∧ ltf_next E (loadTestsFromFile f) w = (Raised e, LtfDone, w).
Proof.
  intros Hf Hr Hc Hm.
  assert (∀ w0, files w0 = files w → readnb E f w0 = (Raise e, w0)) as Hread.
  { intros w0 Hw0. unfold readnb, _readnb. by rewrite Hw0, Hf, Hr, Hc. }
  split.
  - unfold wantFile. rewrite Hm. cbn [negb]. by rewrite Hread.
  - cbn [ltf_next loadTestsFromFile]. by rewrite Hread.
Qed.

Lemma convert_error_propagates_witness :
  (wantFile Sample.E_reject "test_ok.ipynb" Sample.w_more).1
    = Raise (ReadError "cannot convert")
  ∧ ltf_next Sample.E_reject (loadTestsFromFile "test_ok.ipynb") Sample.w_more
    = (Raised (ReadError "cannot convert"), LtfDone, Sample.w_more).
Proof.
  exact (convert_error_propagates Sample.E_reject "test_ok.ipynb"
           "{sample notebook}" Sample.w_more Sample.nb
           (ReadError "cannot convert") eq_refl eq_refl eq_refl eq_refl).
Defined.

(** X3: for a file whose name matches and that reads as a notebook,
    [wantFile] answers whether the notebook has a code cell; it logs that
    there is none when it answers False. *)
Theorem wantFile_code_cell (E : env) (f text : string) (w : world)
    (raw : rawnb E) (d : notebook) :
  files w !! f = Some text →
  reads E text = Ok raw →
  convert E raw NBFORMAT_VERSION = Ok d →
  testMatch E f = true →
  (wantFile E f w).1 = Ok (bool_decide (Exists is_code (cells d)))
  ∧ log (wantFile E f w).2 =
      (log w ++ LogRec INFO (LStr "considering %s") [LStr f]
         :: if bool_decide (Exists is_code (cells d)) then []
            else [LogRec INFO (LStr "no `code` cells in %s") [LStr f]])%list.
Proof.
  intros Hf Hr Hc Hm. unfold wantFile. rewrite Hm. cbn [negb].
  rewrite (readnb_parsed E f _ text raw d) by done.
  rewrite cc_next_fresh.
  destruct (filter is_code (cells d)) as [|c l] eqn:Hfilter.
  - rewrite bool_decide_false.
    + split; [done|]. cbn. by rewrite <-app_assoc.
    + intros (c & Hin & Hcode)%Exists_exists.
      assert (c ∈ filter is_code (cells d)) as Hc'
        by (by apply list_elem_of_filter).
      rewrite Hfilter in Hc'. by apply not_elem_of_nil in Hc'.
  - rewrite bool_decide_true; [done|].
    assert (c ∈ filter is_code (cells d)) as [Hcode Hin]%list_elem_of_filter
      by (rewrite Hfilter; left).
    apply Exists_exists. eauto.
Qed.

Lemma wantFile_code_cell_witness :
  (wantFile Sample.E3 "test_ok.ipynb" Sample.w_more).1 = Ok true
  ∧ (wantFile Sample.E3 "test_plain.ipynb" Sample.w_more).1 = Ok false.
Proof.
  split.
  - exact (proj1 (wantFile_code_cell Sample.E3 "test_ok.ipynb"
             "{sample notebook}" Sample.w_more Sample.nb Sample.nb
             eq_refl eq_refl eq_refl eq_refl)).
  - exact (proj1 (wantFile_code_cell Sample.E3 "test_plain.ipynb"
             "{no code}" Sample.w_more Sample.nb_plain Sample.nb_plain
             eq_refl eq_refl eq_refl eq_refl)).
Defined.

(** X4: [wantFile] and [loadTestsFromFile] agree: when [wantFile] has
    answered for a file whose name matches and the generator then runs to
    its end without exception, the answer was True exactly when the
    generator yields a test. *)
Theorem wantFile_agrees_with_tests (E : env) (f : string) (w w' w'' : world)
    (b : bool) (fuel : nat) (ts : list testcase) :
  testMatch E f = true →
  wantFile E f w = (Ok b, w') →
  ltf_drain E fuel (loadTestsFromFile f) w' = Some (ts, None, w'') →
  b = true ↔ ts ≠ [].
Proof.
  intros Hm Hwant Hd. unfold wantFile in Hwant. rewrite Hm in Hwant.
  cbn [negb] in Hwant.
  destruct (readnb E f _) as [[[|d]|e] w1] eqn:Hread; try done.
  apply readnb_Nb in Hread as Hw1. subst w1.
  rewrite cc_next_fresh in Hwant.
  apply ltf_drain_inv in Hd
    as [_ [[_ [? [=]]]|(d' & k & Hread' & _ & -> & _)]].
  assert (d' = d) as ->.
  { assert (files w' !! f
            = files (log_info "considering %s" [LStr f] w) !! f) as Hfile.
    { by destruct (filter is_code (cells d)); injection Hwant as <- <-. }
    apply readnb_same_file with (E := E) in Hfile.
    rewrite Hread, Hread' in Hfile. by injection Hfile. }
  destruct (filter is_code (cells d)); injection Hwant as <- <-; by split.
Qed.

Lemma wantFile_agrees_with_tests_witness :
  ∃ w' ts w'',
    wantFile Sample.E3 "test_ok.ipynb" Sample.w_more = (Ok true, w')
    ∧ ltf_drain Sample.E3 4 (loadTestsFromFile "test_ok.ipynb") w'
        = Some (ts, None, w'')
    ∧ ts ≠ [].
Proof.
  eexists _, _, _. split; [vm_compute; reflexivity|].
  split; [vm_compute; reflexivity|].
  exact (proj1 (wantFile_agrees_with_tests Sample.E3 "test_ok.ipynb"
                  Sample.w_more _ _ true 4 _ eq_refl eq_refl eq_refl)
           eq_refl).
Defined.

(** X5: for a notebook without code cells [loadTestsFromFile] yields no
    test, and has started a kernel all the same, which is running when
    the generator ends. *)
Theorem loadTestsFromFile_no_code_cell (E : env) (f : string) (w w2 : world)
    (d : notebook) (fuel : nat) (ts : list testcase) :
  (readnb E f w).1 = Ok (Nb d) →
  Forall (λ c, ¬ is_code c) (cells d) →
  ltf_drain E fuel (loadTestsFromFile f) w = Some (ts, None, w2) →
  ts = []
  ∧ ∃ kn, kernels w2 = (kernels w ++ [kn])%list ∧ k_alive kn = true.
Proof.
  intros Hread Hnone Hd.
  apply ltf_drain_inv in Hd
    as [_ [[_ [? [=]]]|(d' & k & Hread' & Hnew & -> & _)]].
  rewrite Hread' in Hread. injection Hread as ->.
  apply newKernel_Ok in Hnew as (_ & name & ->). split; [|by eexists].
  by rewrite filter_is_code_nil.
Qed.

Lemma loadTestsFromFile_no_code_cell_witness :
  ∃ w2,
    ltf_drain Sample.E3 2 (loadTestsFromFile "test_plain.ipynb") Sample.w_more
      = Some ([], None, w2)
    ∧ ∃ kn, kernels w2 = [kn] ∧ k_alive kn = true.
Proof.
  eexists. split; [vm_compute; reflexivity|].
  assert (Forall (λ c, ¬ is_code c) (cells Sample.nb_plain)) as Hnone.
  { repeat constructor. discriminate. }
  exact (proj2 (loadTestsFromFile_no_code_cell Sample.E3 "test_plain.ipynb"
                  Sample.w_more _ Sample.nb_plain 2 [] eq_refl Hnone eq_refl)).
Defined.

(** X6: the kernel that [loadTestsFromFile] starts is new (no code
    submitted yet) and running, and it was asked for by the name in the
    kernelspec of the notebook's metadata; under IPython 2 by no name. *)
Theorem kernel_named_by_kernelspec (E : env) (f : string) (w w2 : world)
    (fuel : nat) (ts : list testcase) :
  ltf_drain E fuel (loadTestsFromFile f) w = Some (ts, None, w2) →
  ∃ d kn,
    (readnb E f w).1 = Ok (Nb d)
    ∧ kernels w2 = (kernels w ++ [kn])%list
    ∧ k_alive kn = true
    ∧ k_executed kn = []
    ∧ k_name kn = match IPYTHON_VERSION E with
                  | IPython2 => None
                  | _ => md_kernelspec (metadata d) ≫= ks_name
                  end.
Proof.
  intros Hd.
  apply ltf_drain_inv in Hd
    as [_ [[_ [? [=]]]|(d & k & Hread & Hnew & _ & _)]].
  apply newKernel_Ok_name in Hnew as (name & -> & Hv2 & Hv3).
  exists d, (Kernel name true [] (kernel_io w (length (kernels w)))).
  rewrite Hread. repeat split. cbn.
  destruct (IPYTHON_VERSION E); [by apply Hv2|..];
    (destruct Hv3 as (n & -> & Hn); [done|]);
    cbn in Hn; destruct (md_kernelspec (metadata d)) as [ks|]; try done;
    cbn; by destruct (ks_name ks); simplify_eq.
Qed.

Lemma kernel_named_by_kernelspec_witness :
  ∃ ts w2 kn,
    ltf_drain Sample.E3 4 (loadTestsFromFile "test_ok.ipynb") Sample.w_more
      = Some (ts, None, w2)
    ∧ kernels w2 = [kn]
    ∧ k_name kn = Some "python3".
Proof.
  destruct (kernel_named_by_kernelspec Sample.E3 "test_ok.ipynb" Sample.w_more
              _ 4 _ eq_refl) as (d & kn & Hread & Hk & _ & _ & Hname).
  eexists _, _, kn. split; [reflexivity|]. split; [exact Hk|].
  rewrite Hname. by injection Hread as <-.
Defined.

(** X7: under IPython 3 and 4 a notebook whose metadata names no kernel
    gets no test: the first [next] of [loadTestsFromFile] raises
    [AttributeError] and has started no kernel. *)
Theorem loadTestsFromFile_without_kernelspec (E : env) (f : string)
    (w : world) (d : notebook) :
  IPYTHON_VERSION E ≠ IPython2 →
  (readnb E f w).1 = Ok (Nb d) →
  md_kernelspec (metadata d) ≫= ks_name = None →
  ∃ attr,
    ltf_next E (loadTestsFromFile f) w
      = (Raised (AttributeError "NotebookNode" attr), LtfDone, w).
Proof.
  intros Hv Hread Hname.
  destruct (readnb E f w) as [r w1] eqn:Hr. cbn in Hread. subst r.
  apply readnb_Nb in Hr as Hw1. subst w1.
  cbn [ltf_next loadTestsFromFile]. rewrite Hr.
  unfold newKernel, NosebookThree.newKernel, NosebookThree.kernel_name.
  destruct (IPYTHON_VERSION E); [done|..];
    (destruct (md_kernelspec (metadata d)) as [ks|]; cbn in Hname;
       [rewrite Hname|]; eauto).
Qed.

Lemma loadTestsFromFile_without_kernelspec_witness :
  (wantFile Sample.E3 "test_bare.ipynb" Sample.w_more).1 = Ok true
  ∧ ∃ attr,
      ltf_next Sample.E3 (loadTestsFromFile "test_bare.ipynb") Sample.w_more
        = (Raised (AttributeError "NotebookNode" attr), LtfDone, Sample.w_more).
Proof.
  split; [reflexivity|].
  apply (loadTestsFromFile_without_kernelspec Sample.E3 "test_bare.ipynb"
           Sample.w_more Sample.nb_bare); [discriminate|reflexivity..].
Defined.

(** X8: under IPython 2 a file that does not read as a notebook still has
    a kernel started for it: [newKernel] does not look at the notebook,
    and only then the iteration of [codeCells(False)] raises; the kernel
    is left running and no test is yielded. *)
Theorem loadTestsFromFile_ipython2_unparsable (E : env) (f : string)
    (w : world) :
  IPYTHON_VERSION E = IPython2 →
  (readnb E f w).1 = Ok NbFalse →
  can_launch w None = true →
  ∃ w2,
    ltf_next E (loadTestsFromFile f) w
      = (Raised (AttributeError "bool" "cells"), LtfDone, w2)
    ∧ kernels w2
      = (kernels w ++ [Kernel None true [] (kernel_io w (length (kernels w)))])%list.
Proof.
  intros Hv Hread Hlaunch.
  destruct (readnb_frame E f w) as (_ & Hk & Hcl & Hio).
  destruct (readnb E f w) as [r w1] eqn:Hr. cbn in Hread, Hk, Hcl, Hio.
  subst r. cbn [ltf_next loadTestsFromFile]. rewrite Hr.
  unfold newKernel, NosebookTwo.newKernel, KernelLib.start_new_kernel.
  rewrite Hv, Hcl, Hlaunch, Hk, Hio. by eexists.
Qed.

Lemma loadTestsFromFile_ipython2_unparsable_witness :
  ∃ w2,
    ltf_next Sample.E2 (loadTestsFromFile "test_bad.ipynb") Sample.w_more
      = (Raised (AttributeError "bool" "cells"), LtfDone, w2)
    ∧ length (kernels w2) = 1.
Proof.
  destruct (loadTestsFromFile_ipython2_unparsable Sample.E2 "test_bad.ipynb"
              Sample.w_more eq_refl eq_refl eq_refl) as (w2 & Hnext & Hk).
  exists w2. split; [exact Hnext|]. by rewrite Hk.
Defined.

(** X9: [wantFile] starts no kernel and leaves the files alone; and a
    file whose name does not match is not even read: the answer is False
    whatever the file holds, with the one log record of the name. *)
Theorem wantFile_only_logs (E : env) (f : string) (w : world) :
  files (wantFile E f w).2 = files w
  ∧ kernels (wantFile E f w).2 = kernels w
  ∧ (testMatch E f = false →
     wantFile E f w = (Ok false, log_info "considering %s" [LStr f] w)).
Proof.
  unfold wantFile. split; [|split].
  - destruct (testMatch E f); cbn [negb]; [|done].
    pose proof (readnb_frame E f (log_info "considering %s" [LStr f] w))
      as (Hf & _).
    destruct (readnb E f _) as [[nb|e] w1]; cbn in Hf; [|done].
    by destruct (cc_next (codeCells nb)) as [[c| |e] g].
  - destruct (testMatch E f); cbn [negb]; [|done].
    pose proof (readnb_frame E f (log_info "considering %s" [LStr f] w))
      as (_ & Hk & _).
    destruct (readnb E f _) as [[nb|e] w1]; cbn in Hk; [|done].
    by destruct (cc_next (codeCells nb)) as [[c| |e] g].
  - by intros ->.
Qed.

Lemma wantFile_only_logs_witness :
  Sample.default_match "notes.ipynb" = false
  ∧ wantFile Sample.E "notes.ipynb" Sample.w_more
    = (Ok false, log_info "considering %s" [LStr "notes.ipynb"] Sample.w_more).
Proof.
  split; [reflexivity|].
  exact (proj2 (proj2 (wantFile_only_logs Sample.E "notes.ipynb"
                         Sample.w_more)) eq_refl).
Defined.

(** * Further properties of the runner *)

Section RunnerFacts.

Context (E : env).

Implicit Types (m : message) (c : cell) (w : world) (t : testcase).

Lemma log_add_logs (dbg : list logrec) w :
  log (foldl (λ w r, add_log r w) w dbg) = (log w ++ dbg)%list.
Proof.
  revert w. induction dbg as [|r dbg IH]; intros w; cbn [foldl].
  - by rewrite app_nil_r.
  - rewrite IH. cbn. by rewrite <-app_assoc.
Qed.

Lemma kernels_add_logs (dbg : list logrec) w :
  kernels (foldl (λ w r, add_log r w) w dbg) = kernels w.
Proof.
  revert w. induction dbg as [|r dbg IH]; intros w; [done|].
  cbn [foldl]. by rewrite IH.
Qed.

(** The outcome of [runTest] and the records it logs are those of the
    loop on the channel as it is found. *)
Lemma runTest_outcome t w :
  (runTest E t w).1
    = (poll E (t_cell t) None (KernelLib.iopub (t_kernel t) w)).1.1
  ∧ log (runTest E t w).2
    = (log w ++ (poll E (t_cell t) None (KernelLib.iopub (t_kernel t) w)).2)%list.
Proof.
  unfold runTest. rewrite iopub_execute.
  destruct (poll E (t_cell t) None _) as [[o rest] dbg]. cbn.
  by rewrite log_add_logs.
Qed.

(** The idle status reached while the cell is running ends the loop. *)
Lemma poll_idle c (pre rest : list (option message)) m :
  Forall running pre →
  is_idle m →
  poll E c None (pre ++ Some m :: rest) = (Passed, rest, []).
Proof.
  intros Hpre Hidle.
  destruct (poll_running E c pre (Some m :: rest) None eq_refl Hpre)
    as (msg' & Hmsg' & ->).
  cbn [poll]. rewrite Hmsg'.
  rewrite bool_decide_false by (destruct Hidle as [-> _]; done).
  apply poll_stop. by apply shouldContinue_false.
Qed.

(** Once the loop test does not say True, the channel is not read. *)
Lemma poll_halt c msg (chan : list (option message)) :
  shouldContinue msg ≠ Ok true →
  poll E c msg chan =
    (match shouldContinue msg with Raise e => Failed e | _ => Passed end,
     chan, []).
Proof.
  intros H. destruct chan as [|ev chan]; cbn [poll];
    by destruct (shouldContinue msg) as [[|]|e].
Qed.

(** Polls that time out do not change how the loop ends. *)
Lemma poll_without_timeouts c msg (chan : list (option message)) :
  (poll E c msg (filter delivered chan)).1.1 = (poll E c msg chan).1.1.
Proof.
  revert msg. induction chan as [|ev chan IH]; intros msg; [done|].
  destruct (shouldContinue msg) as [[|]|e] eqn:Hc.
  - destruct ev as [m|].
    + rewrite filter_cons_True by (by eexists). cbn [poll]. rewrite Hc.
      case_bool_decide; [by destruct (on_error E c m)|apply IH].
    + rewrite filter_cons_False by (by intros [? ?]).
      rewrite IH. cbn [poll]. by rewrite Hc.
  - by rewrite !poll_halt by congruence.
  - by rewrite !poll_halt by congruence.
Qed.

Lemma iopub_set_iopub_filter k w :
  KernelLib.iopub k
    (KernelLib.set_iopub k (filter delivered (KernelLib.iopub k w)) w)
  = filter delivered (KernelLib.iopub k w).
Proof.
  unfold KernelLib.iopub, KernelLib.set_iopub. cbn.
  rewrite list_lookup_alter_eq. by destruct (kernels w !! k).
Qed.

(** The kernel table after [runTest]: the source of the cell is added to
    the code submitted to the kernel of the test, its channel is
    shorter, and the other kernels are as they were. *)
Lemma runTest_kernels t w :
  ∃ ch,
    kernels (runTest E t w).2
    = alter (λ kn, Kernel (k_name kn) (k_alive kn)
                     (k_executed kn ++ [source (t_cell t)]) ch)
        (t_kernel t) (kernels w).
Proof.
  unfold runTest.
  destruct (poll E (t_cell t) None _) as [[o rest] dbg]. cbn.
  exists rest. rewrite kernels_add_logs. cbn.
  apply list_eq. intros i. destruct (decide (i = t_kernel t)) as [->|Hi].
  - rewrite !list_lookup_alter_eq. by destruct (kernels w !! t_kernel t).
  - by rewrite !list_lookup_alter_ne.
Qed.

End RunnerFacts.

(** X10: when the polls of [runTest] reach the idle status before any
    error message, the test passes, what follows the idle status stays on
    the channel, and nothing is logged. *)
Theorem runTest_passes_at_idle (E : env) (t : testcase) (w : world)
    (pre rest : list (option message)) (m : message) :
  KernelLib.iopub (t_kernel t) w = (pre ++ Some m :: rest)%list →
  Forall running pre →
  is_idle m →
  (runTest E t w).1 = Passed
  ∧ KernelLib.iopub (t_kernel t) (runTest E t w).2 = rest
  ∧ log (runTest E t w).2 = log w.
Proof.
  intros Hio Hpre Hidle.
  pose proof (poll_idle E (t_cell t) pre rest m Hpre Hidle) as Hpoll.
  destruct (runTest_outcome E t w) as [_ Hlog].
  rewrite Hio, Hpoll in Hlog. cbn in Hlog. rewrite app_nil_r in Hlog.
  split; [|split; [|exact Hlog]];
    apply (runTest_poll E t w Passed rest []);
    rewrite ?Hio, ?length_app; cbn; try lia; done.
Qed.

Lemma runTest_passes_at_idle_witness :
  (runTest Sample.E Sample.test_a
     (Sample.with_channel
        [Some Sample.busy; None; Some Sample.stream_msg; Some Sample.idle;
         Some Sample.busy])).1 = Passed.
Proof.
  assert (Forall running [Some Sample.busy; None; Some Sample.stream_msg])
    as Hpre.
  { repeat constructor; try discriminate.
    - intros _. by eexists.
    - intros [_ H]. vm_compute in H. discriminate.
    - intros [H _]. discriminate. }
  exact (proj1 (runTest_passes_at_idle Sample.E Sample.test_a
                  (Sample.with_channel
                     [Some Sample.busy; None; Some Sample.stream_msg;
                      Some Sample.idle; Some Sample.busy])
                  [Some Sample.busy; None; Some Sample.stream_msg]
                  [Some Sample.busy] Sample.idle eq_refl Hpre
                  (conj eq_refl eq_refl))).
Defined.

(** X11: however it ends, [runTest] submits the source of its cell to its
    kernel, once and after the code submitted before; it changes nothing
    else of that kernel but the channel, and leaves the other kernels as
    they were. *)
Theorem runTest_submits_source (E : env) (t : testcase) (w : world)
    (kn : kernel) :
  kernels w !! t_kernel t = Some kn →
  (∃ ch, kernels (runTest E t w).2 !! t_kernel t
         = Some (Kernel (k_name kn) (k_alive kn)
                   (k_executed kn ++ [source (t_cell t)]) ch))
  ∧ (∀ j, j ≠ t_kernel t →
       kernels (runTest E t w).2 !! j = kernels w !! j)
  ∧ length (kernels (runTest E t w).2) = length (kernels w).
Proof.
  intros Hkn. destruct (runTest_kernels E t w) as [ch ->].
  split; [|split].
  - exists ch. by rewrite list_lookup_alter_eq, Hkn.
  - intros j Hj. by rewrite list_lookup_alter_ne.
  - apply length_alter.
Qed.

Lemma runTest_submits_source_witness :
  ∃ ch,
    kernels (runTest Sample.E Sample.test_b Sample.w_two_errors).2 !! 0
    = Some (Kernel (Some "python3") true ["assert x == 1"] ch).
Proof.
  exact (proj1 (runTest_submits_source Sample.E Sample.test_b
                  Sample.w_two_errors _ eq_refl)).
Defined.

(** X12: polls that time out are retried and change nothing: [runTest]
    ends in the same way on a channel and on that channel with the
    timeouts taken out. *)
Theorem runTest_timeouts_transparent (E : env) (t : testcase) (w : world) :
  (runTest E t
     (KernelLib.set_iopub (t_kernel t)
        (filter delivered (KernelLib.iopub (t_kernel t) w)) w)).1
  = (runTest E t w).1.
Proof.
  rewrite (proj1 (runTest_outcome E t _)), (proj1 (runTest_outcome E t w)).
  rewrite iopub_set_iopub_filter. apply poll_without_timeouts.
Qed.

(** X13: [runTest] has no deadline: on a channel that delivers neither
    an idle status nor an error, timeouts and other messages only, it
    never returns. *)
Theorem runTest_never_returns (E : env) (t : testcase) (w : world) :
  Forall running (KernelLib.iopub (t_kernel t) w) →
  (runTest E t w).1 = Hung.
Proof.
  intros Hrun. rewrite (proj1 (runTest_outcome E t w)).
  destruct (poll_running E (t_cell t) _ [] None eq_refl Hrun)
    as (msg' & Hmsg' & Hpoll).
  rewrite app_nil_r in Hpoll. rewrite Hpoll. cbn. by rewrite Hmsg'.
Qed.

Lemma runTest_never_returns_witness :
  (runTest Sample.E Sample.test_a
     (Sample.with_channel [Some Sample.busy; None; Some Sample.stream_msg])).1
  = Hung.
Proof.
  apply runTest_never_returns. cbn.
  repeat constructor; try discriminate.
  - intros _. by eexists.
  - intros [_ H]. vm_compute in H. discriminate.
  - intros [H _]. discriminate.
Defined.

Section Malformed.

Context (E : env).

Implicit Types (m : message) (c : cell) (w : world) (t : testcase).

(** On an error message the loop ends with what the error branch
    raises and logs. *)
Lemma poll_error_branch c (pre post : list (option message)) m :
  Forall running pre →
  msg_type m = "error" →
  poll E c None (pre ++ Some m :: post)
  = (Failed (on_error E c m).1, post, (on_error E c m).2).
Proof.
  intros Hpre Htype.
  destruct (poll_running E c pre (Some m :: post) None eq_refl Hpre)
    as (msg' & Hmsg' & ->).
  cbn [poll]. rewrite Hmsg', bool_decide_true by done.
  by destruct (on_error E c m).
Qed.

Lemma poll_status_without_state c (pre post : list (option message)) m :
  Forall running pre →
  msg_type m = "status" →
  content m !! "execution_state" = None →
  poll E c None (pre ++ Some m :: post)
  = (Failed (KeyError "execution_state"), post, []).
Proof.
  intros Hpre Htype Hnone.
  destruct (poll_running E c pre (Some m :: post) None eq_refl Hpre)
    as (msg' & Hmsg' & ->).
  cbn [poll]. rewrite Hmsg', bool_decide_false by (by rewrite Htype).
  assert (shouldContinue (Some m) = Raise (KeyError "execution_state")) as Hs.
  { unfold shouldContinue, getitem. by rewrite bool_decide_true, Hnone. }
  rewrite poll_halt by (by rewrite Hs). by rewrite Hs.
Qed.

End Malformed.

(** X14: a status message without its execution state makes the loop
    test of [runTest] raise [KeyError]: the test fails with it once the
    message has been read, and what follows stays on the channel. *)
Theorem runTest_status_without_state (E : env) (t : testcase) (w : world)
    (pre post : list (option message)) (m : message) :
  KernelLib.iopub (t_kernel t) w = (pre ++ Some m :: post)%list →
  Forall running pre →
  msg_type m = "status" →
  content m !! "execution_state" = None →
  (runTest E t w).1 = Failed (KeyError "execution_state")
  ∧ KernelLib.iopub (t_kernel t) (runTest E t w).2 = post.
Proof.
  intros Hio Hpre Htype Hnone.
  apply runTest_poll with (dbg := []);
    rewrite Hio; [rewrite length_app; cbn; lia|].
  by apply poll_status_without_state.
Qed.

Lemma runTest_status_without_state_witness :
  (runTest Sample.E Sample.test_a
     (Sample.with_channel [None; Some Sample.status_bare; Some Sample.idle])).1
  = Failed (KeyError "execution_state").
Proof.
  exact (proj1 (runTest_status_without_state Sample.E Sample.test_a
                  (Sample.with_channel
                     [None; Some Sample.status_bare; Some Sample.idle])
                  [None] [Some Sample.idle] Sample.status_bare
                  eq_refl ltac:(by repeat constructor) eq_refl eq_refl)).
Defined.

(** X15: an error message that lacks one of the keys read from its
    content fails the test with the [KeyError] of the first one missing,
    in the order traceback, ename, evalue; the traceback is logged, at
    debug level, as soon as it has been found. *)
Theorem runTest_error_missing_key (E : env) (t : testcase) (w : world)
    (pre post : list (option message)) (m : message) :
  KernelLib.iopub (t_kernel t) w = (pre ++ Some m :: post)%list →
  Forall running pre →
  msg_type m = "error" →
  (content m !! "traceback" = None →
   (runTest E t w).1 = Failed (KeyError "traceback")
   ∧ log (runTest E t w).2 = log w)
  ∧ (∀ tb, content m !! "traceback" = Some tb →
       content m !! "ename" = None →
       (runTest E t w).1 = Failed (KeyError "ename")
       ∧ log (runTest E t w).2 = (log w ++ [LogRec DEBUG (LVal tb) []])%list)
  ∧ (∀ tb ename, content m !! "traceback" = Some tb →
       content m !! "ename" = Some ename →
       content m !! "evalue" = None →
       (runTest E t w).1 = Failed (KeyError "evalue")
       ∧ log (runTest E t w).2 = (log w ++ [LogRec DEBUG (LVal tb) []])%list).
Proof.
  intros Hio Hpre Htype.
  destruct (runTest_outcome E t w) as [Ho Hlog].
  rewrite Hio, (poll_error_branch E _ pre post m Hpre Htype) in Ho, Hlog.
  cbn in Ho, Hlog. rewrite Ho, Hlog. unfold on_error, getitem.
  split; [|split].
  - intros ->. cbn. by rewrite app_nil_r.
  - by intros tb -> ->.
  - by intros tb ename -> -> ->.
Qed.

Lemma runTest_error_missing_key_witness :
  (runTest Sample.E Sample.test_a
     (Sample.with_channel
        [Some Sample.busy; Some Sample.error_unnamed; Some Sample.idle])).1
  = Failed (KeyError "ename").
Proof.
  assert (Forall running [Some Sample.busy]) as Hpre.
  { repeat constructor; try discriminate.
    - intros _. by eexists.
    - intros [_ H]. vm_compute in H. discriminate. }
  exact (proj1 (proj1 (proj2 (runTest_error_missing_key Sample.E Sample.test_a
                  (Sample.with_channel
                     [Some Sample.busy; Some Sample.error_unnamed;
                      Some Sample.idle])
                  [Some Sample.busy] [Some Sample.idle] Sample.error_unnamed
                  eq_refl Hpre eq_refl))
           (PList [PStr "Traceback (most recent call last)"])
           eq_refl eq_refl)).
Defined.

(** * Further properties of the tests of a document *)

Section Tests.


Lemma tests_code (k : nat) (f : string) (l : list cell) :
  cellCode <$> imap (λ j c, init c j k f) l = source <$> l.
Proof.
  apply list_eq. intros i.
  rewrite !list_lookup_fmap, list_lookup_imap. by destruct (l !! i).
Qed.

End Tests.

(** X16: the code that the tests of a document submit is the source of
    its code cells, as read from the file, one test for each and in the
    order of the document: sanitizing the cell does not touch it. *)
Theorem tests_run_the_code_cells (E : env) (f : string) (w w2 : world)
    (d : notebook) (fuel : nat) (ts : list testcase) :
  (readnb E f w).1 = Ok (Nb d) →
  ltf_drain E fuel (loadTestsFromFile f) w = Some (ts, None, w2) →
  cellCode <$> ts = source <$> filter is_code (cells d).
Proof.
  intros Hread Hd.
  apply ltf_drain_inv in Hd
    as [_ [[_ [? [=]]]|(d' & k & Hread' & _ & -> & _)]].
  rewrite Hread' in Hread. injection Hread as ->. apply tests_code.
Qed.

Lemma tests_run_the_code_cells_witness :
  ∃ ts w2,
    ltf_drain Sample.E3 4 (loadTestsFromFile "test_ok.ipynb") Sample.w_more
      = Some (ts, None, w2)
    ∧ cellCode <$> ts = ["x = 1"; "assert x == 1"].
Proof.
  eexists _, _. split; [vm_compute; reflexivity|].
  exact (tests_run_the_code_cells Sample.E3 "test_ok.ipynb" Sample.w_more _
           Sample.nb 4 _ eq_refl eq_refl).
Defined.



(** X18: the identifiers of the tests that one run of the generator
    yields are pairwise different. *)
Theorem test_ids_distinct (E : env) (f : string) (w w2 : world) (fuel : nat)
    (ts : list testcase) (e : option exn) :
  ltf_drain E fuel (loadTestsFromFile f) w = Some (ts, e, w2) →
  NoDup (NoseCellTestCase.id <$> ts).
Proof.
  intros Hd.
  apply ltf_drain_inv in Hd
    as [_ [[-> _]|(d & k & _ & _ & -> & _)]]; [constructor|].
  rewrite tests_ids. apply NoDup_alt. intros i j s Hi Hj.
  apply list_lookup_imap_Some in Hi as (ci & _ & ->).
  apply list_lookup_imap_Some in Hj as (cj & _ & Heq).
  do 2 apply String.app_inj in Heq. by apply (inj pretty) in Heq.
Qed.

Lemma test_ids_distinct_witness :
  ∃ ts w2,
    ltf_drain Sample.E3 4 (loadTestsFromFile "test_ok.ipynb") Sample.w_more
      = Some (ts, None, w2)
    ∧ length ts = 2
    ∧ NoDup (NoseCellTestCase.id <$> ts).
Proof.
  eexists _, _. split; [vm_compute; reflexivity|]. split; [reflexivity|].
  exact (test_ids_distinct Sample.E3 "test_ok.ipynb" Sample.w_more _ 4 _ None
           eq_refl).
Defined.
